(** * libs/judger.js: task dispatch, requeue and result reporting

    A shallow embedding of [src/libs/judger.js].  The module keeps
    - the Redis sorted set ['judge'] behind [judgeQueue.push] / [judgeQueue.poll],
    - the process-local [judgeStateCache] map,
    - one closure per worker socket holding [pendingAckTaskObj] and
      [waitingForTask],
    and registers four socket handlers ([waitForTask], [disconnect],
    [reportProgress], [reportResult]) plus the exported [judge] function.

    Handlers are embedded as functions on an explicit state; every call into
    a collaborator (winston, the socket, Redis, progressPusher, the
    judge_state model) is appended to a trace of effects, so that "is
    logged", "is acknowledged" and "is not notified" are statements about
    that trace.

    An [async] handler runs without interruption from its event to its first
    [await].  The [waitForTask] handler awaits [judgeQueue.poll] in a loop:
    it is cut there, and each reply to a poll is an event of its own that
    resumes it, so that a disconnect can fall between the request and the
    reply as it can in the program.  The awaits of [reportResult] on the
    judge_state model are taken in one step.

    Tokens, ids and queue members are strings, numbers are integers, and
    time is counted in milliseconds. *)

From Stdlib Require Import ZArith String List.
From Stdlib.Strings Require Import Byte Ascii.
From stdpp Require Import gmap strings pretty list fin_maps.

Local Open Scope Z_scope.
Local Open Scope string_scope.

(** ** Data carried by the module *)

(** [curr.status], [subtask.cases], [result.judge.subtasks]: the part of a
    progress payload that [getRunningTaskStatusString] reads. *)
Record TestcaseResult := { status : Z }.
Record SubtaskResult := { cases : list TestcaseResult }.
Record JudgeResult := { subtasks : list SubtaskResult }.
Record ProgressPayload := { result_judge : JudgeResult }.

(** The decoded worker report [{taskId, type, progress}]. *)
Record Report := {
  report_taskId : string;
  report_type : Z;
  report_progress : ProgressPayload
}.

(** The [param] object built by [judge]: four keys for an interaction
    problem, six for a standard one. *)
Inductive TaskParam :=
| InteractionParam (language code : string) (timeLimit memoryLimit : Z)
| StandardParam (language code : string) (timeLimit memoryLimit : Z)
                (fileIOInput fileIOOutput : option string).

Record Content := {
  taskId : string;
  testData : string;
  type : Z;
  content_priority : Z;
  param : option TaskParam
}.

(** The queued value [{content, extraData}]. *)
Record Task := {
  content : Content;
  extraData : option (list byte)
}.

(** What [judgeQueue.poll] resolves to: [{data, priority}]. *)
Record Entry := {
  data : Task;
  priority : Z
}.

Global Instance byte_eq_dec : EqDecision byte := Byte.byte_eq_dec.
Global Instance TaskParam_eq_dec : EqDecision TaskParam.
Proof. solve_decision. Defined.
Global Instance Content_eq_dec : EqDecision Content.
Proof. solve_decision. Defined.
Global Instance Task_eq_dec : EqDecision Task.
Proof. solve_decision. Defined.

(** A value of [judgeStateCache]. *)
Record Snapshot := {
  snap_result : string;
  snap_score : Z;
  snap_time : Z;
  snap_memory : Z
}.

(** ** The Redis sorted set behind the queue

    [ZADD key score member] sets the score of [member] (adding it when it is
    new); [BZPOPMAX key timeout] removes and returns the member with the
    highest score, the lexicographically greatest one among equal scores, and
    returns nil when the set stays empty until the timeout. *)
Module Redis.

Definition zadd (score : Z) (member : string) (z : gmap string Z) : gmap string Z :=
  <[member := score]> z.

(** Sorted-set order: by score, then by member. *)
Definition zle (a b : string * Z) : bool :=
  if decide (a.2 = b.2) then String.leb a.1 b.1 else bool_decide (a.2 < b.2).

Definition zmax_step (member : string) (score : Z) (best : option (string * Z))
  : option (string * Z) :=
  match best with
  | None => Some (member, score)
  | Some b => if zle b (member, score) then Some (member, score) else Some b
  end.

Definition zmax (z : gmap string Z) : option (string * Z) :=
  map_fold zmax_step None z.

Definition bzpopmax (z : gmap string Z) : option (string * Z) * gmap string Z :=
  match zmax z with
  | None => (None, z)
  | Some (member, score) => (Some (member, score), delete member z)
  end.

End Redis.

(** ** Collaborators

    The module's [require]s and the [syzoj] global, none of which is part of
    this file: their values and functions are taken as given. *)

(** What [judgeResult.convertResult] returns, as far as it is read here. *)
Record ConvertedResult (Detail : Type) := {
  cr_score : Z;
  cr_statusString : string;
  cr_time : Z;
  cr_memory : Z;
  cr_result : Detail
}.
Arguments cr_score {Detail} _.
Arguments cr_statusString {Detail} _.
Arguments cr_time {Detail} _.
Arguments cr_memory {Detail} _.
Arguments cr_result {Detail} _.

(** A row of the [judge_state] model, keyed by [task_id]. *)
Record JudgeState (Detail : Type) := {
  js_task_id : string;
  js_language : string;
  js_code : string;
  js_score : Z;
  js_pending : bool;
  js_status : string;
  js_total_time : Z;
  js_max_memory : Z;
  js_result : option Detail;
  js_compilation : option ProgressPayload
}.
Arguments js_task_id {Detail} _.
Arguments js_language {Detail} _.
Arguments js_code {Detail} _.
Arguments js_score {Detail} _.
Arguments js_pending {Detail} _.
Arguments js_status {Detail} _.
Arguments js_total_time {Detail} _.
Arguments js_max_memory {Detail} _.
Arguments js_result {Detail} _.
Arguments js_compilation {Detail} _.

(** The [problem] argument of [judge]. *)
Record Problem := {
  problem_id : Z;
  problem_type : string;
  time_limit : Z;
  memory_limit : Z;
  file_io : bool;
  file_io_input_name : option string;
  file_io_output_name : option string
}.

Record Imports (Detail : Type) := {
  (** [syzoj.config.judge_token] *)
  judge_token : string;
  (** [JSON.stringify] / [JSON.parse] on queued values; [None] is a thrown
      [SyntaxError] *)
  JSON_stringify : Task → string;
  JSON_parse : string → option Task;
  (** [msgPack.encode] / [msgPack.decode] *)
  msgPack_encode : Task → list byte;
  msgPack_decode : list byte → Report;
  (** [judgeResult.convertResult] *)
  convertResult : string → ProgressPayload → ConvertedResult Detail;
  (** [interface.ProgressReportType] *)
  Started : Z;
  Compiled : Z;
  Progress : Z;
  Finished : Z;
  Reported : Z;
  (** [enums.ProblemType] *)
  Standard : Z;
  AnswerSubmission : Z;
  Interaction : Z;
  (** [fs.readFileAsync]; [None] is a rejected read *)
  readFileAsync : string → option (list byte);
  (** [syzoj.model('file').resolvePath] *)
  resolvePath : string → string → string;
  (** [util.inspect] on a disconnect reason *)
  util_inspect : string → string
}.
Arguments judge_token {Detail} _.
Arguments JSON_stringify {Detail} _ _.
Arguments JSON_parse {Detail} _ _.
Arguments msgPack_encode {Detail} _ _.
Arguments msgPack_decode {Detail} _ _.
Arguments convertResult {Detail} _ _ _.
Arguments Started {Detail} _.
Arguments Compiled {Detail} _.
Arguments Progress {Detail} _.
Arguments Finished {Detail} _.
Arguments Reported {Detail} _.
Arguments Standard {Detail} _.
Arguments AnswerSubmission {Detail} _.
Arguments Interaction {Detail} _.
Arguments readFileAsync {Detail} _ _.
Arguments resolvePath {Detail} _ _ _.
Arguments util_inspect {Detail} _ _.

(** ** Effects and state *)

(** Calls that leave the module, in the order they are made. *)
Inductive Effect (Detail : Type) :=
| winston_info (msg : string)
| winston_warn (msg : string)
| winston_verbose (msg : string)
| winston_error (msg : string)
| ack
| socket_emit_onTask (packed : list byte)
| redis_ZADD (score : Z) (member : string)
| redis_BZPOPMAX (timeout : Z)
| progressPusher_createTask (id : string)
| progressPusher_updateCompileStatus (id : string) (p : ProgressPayload)
| progressPusher_updateProgress (id : string) (p : ProgressPayload)
| progressPusher_updateResult (id : string) (p : ProgressPayload)
| progressPusher_cleanupProgress (id : string)
| judge_state_save (row : JudgeState Detail)
| judge_state_updateRelatedInfo (row : JudgeState Detail).
Arguments winston_info {Detail} _.
Arguments winston_warn {Detail} _.
Arguments winston_verbose {Detail} _.
Arguments winston_error {Detail} _.
Arguments ack {Detail}.
Arguments socket_emit_onTask {Detail} _.
Arguments redis_ZADD {Detail} _ _.
Arguments redis_BZPOPMAX {Detail} _.
Arguments progressPusher_createTask {Detail} _.
Arguments progressPusher_updateCompileStatus {Detail} _ _.
Arguments progressPusher_updateProgress {Detail} _ _.
Arguments progressPusher_updateResult {Detail} _ _.
Arguments progressPusher_cleanupProgress {Detail} _.
Arguments judge_state_save {Detail} _.
Arguments judge_state_updateRelatedInfo {Detail} _.

(** State shared by all connections: the Redis key ['judge'], the module's
    [judgeStateCache], the judge_state table, the pending [setTimeout]
    callbacks (due time in milliseconds and the task id whose cache entry the
    callback deletes), the clock, and the effects so far (oldest first). *)
Record Server (Detail : Type) := {
  redis_judge : gmap string Z;
  judgeStateCache : gmap string Snapshot;
  judge_state_table : gmap string (JudgeState Detail);
  timers : list (N * string);
  now : N;
  effects : list (Effect Detail)
}.
Arguments redis_judge {Detail} _.
Arguments judgeStateCache {Detail} _.
Arguments judge_state_table {Detail} _.
Arguments timers {Detail} _.
Arguments now {Detail} _.
Arguments effects {Detail} _.

(** The closure of one ['connect'] callback: the socket and the two
    variables declared at line 51.  [polling] counts the invocations of the
    [waitForTask] handler that are suspended at [await judgeQueue.poll(10)]. *)
Record Session := {
  socket_id : string;
  socket_connected : bool;
  pendingAckTaskObj : option Entry;
  waitingForTask : bool;
  polling : nat
}.

(** Exceptions the module can see. *)
Inductive Exn :=
| ReadFileError (path : string)
| SyntaxError (text : string).

(** ** A state and exception monad for handler bodies *)

Definition M (S A : Type) : Type := S → (Exn + A) * S.

Global Instance M_ret {S} : MRet (M S) := λ A a s, (inr a, s).
Global Instance M_bind {S} : MBind (M S) := λ A B k m s,
  match m s with
  | (inl e, s') => (inl e, s')
  | (inr a, s') => k a s'
  end.

Definition throw {S A} (e : Exn) : M S A := λ s, (inl e, s).
Definition gets {S A} (f : S → A) : M S A := λ s, (inr (f s), s).
Definition modify {S} (f : S → S) : M S unit := λ s, (inr tt, f s).
Definition skip {S} : M S unit := mret tt.

(** Run a server action from inside a connection. *)
Definition server {Sess Srv A} (m : M Srv A) : M (Sess * Srv) A := λ s,
  let '(r, srv) := m s.2 in (r, (s.1, srv)).

(** Field updates. *)
Definition set_redis_judge {Detail} (f : gmap string Z → gmap string Z)
    (sv : Server Detail) : Server Detail :=
  {| redis_judge := f (redis_judge sv); judgeStateCache := judgeStateCache sv;
     judge_state_table := judge_state_table sv; timers := timers sv;
     now := now sv; effects := effects sv |}.

Definition set_judgeStateCache {Detail}
    (f : gmap string Snapshot → gmap string Snapshot)
    (sv : Server Detail) : Server Detail :=
  {| redis_judge := redis_judge sv; judgeStateCache := f (judgeStateCache sv);
     judge_state_table := judge_state_table sv; timers := timers sv;
     now := now sv; effects := effects sv |}.

Definition set_judge_state_table {Detail}
    (f : gmap string (JudgeState Detail) → gmap string (JudgeState Detail))
    (sv : Server Detail) : Server Detail :=
  {| redis_judge := redis_judge sv; judgeStateCache := judgeStateCache sv;
     judge_state_table := f (judge_state_table sv); timers := timers sv;
     now := now sv; effects := effects sv |}.

Definition set_timers {Detail} (f : list (N * string) → list (N * string))
    (sv : Server Detail) : Server Detail :=
  {| redis_judge := redis_judge sv; judgeStateCache := judgeStateCache sv;
     judge_state_table := judge_state_table sv; timers := f (timers sv);
     now := now sv; effects := effects sv |}.

Definition set_now {Detail} (f : N → N) (sv : Server Detail) : Server Detail :=
  {| redis_judge := redis_judge sv; judgeStateCache := judgeStateCache sv;
     judge_state_table := judge_state_table sv; timers := timers sv;
     now := f (now sv); effects := effects sv |}.

Definition set_effects {Detail} (f : list (Effect Detail) → list (Effect Detail))
    (sv : Server Detail) : Server Detail :=
  {| redis_judge := redis_judge sv; judgeStateCache := judgeStateCache sv;
     judge_state_table := judge_state_table sv; timers := timers sv;
     now := now sv; effects := f (effects sv) |}.

Definition set_socket_connected (b : bool) (c : Session) : Session :=
  {| socket_id := socket_id c; socket_connected := b;
     pendingAckTaskObj := pendingAckTaskObj c;
     waitingForTask := waitingForTask c; polling := polling c |}.

Definition set_pendingAckTaskObj (o : option Entry) (c : Session) : Session :=
  {| socket_id := socket_id c; socket_connected := socket_connected c;
     pendingAckTaskObj := o;
     waitingForTask := waitingForTask c; polling := polling c |}.

Definition set_waitingForTask (b : bool) (c : Session) : Session :=
  {| socket_id := socket_id c; socket_connected := socket_connected c;
     pendingAckTaskObj := pendingAckTaskObj c;
     waitingForTask := b; polling := polling c |}.

Definition set_polling (f : nat → nat) (c : Session) : Session :=
  {| socket_id := socket_id c; socket_connected := socket_connected c;
     pendingAckTaskObj := pendingAckTaskObj c;
     waitingForTask := waitingForTask c; polling := f (polling c) |}.

(** ** getRunningTaskStatusString (lines 12-23) *)

Definition isPending (status : Z) : bool := bool_decide (status ∈ [0; 1]).

Definition countCases (result : ProgressPayload) : nat * nat :=
  foldl (λ acc subtask,
           foldl (λ '(allFinished, allTotal) curr,
                    (if isPending (status curr) then allFinished else S allFinished,
                     S allTotal))
                 acc (cases subtask))
        (0%nat, 0%nat) (subtasks (result_judge result)).

Definition getRunningTaskStatusString (result : ProgressPayload) : string :=
  let '(allFinished, allTotal) := countCases result in
  "Running " +:+ pretty allFinished +:+ "/" +:+ pretty allTotal.

Section Judger.
Context {Detail : Type} (env : Imports Detail).

Local Abbreviation World := (Session * Server Detail)%type.

Definition perform (e : Effect Detail) : M (Server Detail) unit :=
  modify (set_effects (λ l, (l ++ [e])%list)).

(** *** judgeQueue (lines 30-45) *)

Definition judgeQueue_push (data : Task) (priority : Z) : M (Server Detail) unit :=
  perform (redis_ZADD priority (JSON_stringify env data)) ;;
  modify (set_redis_judge (Redis.zadd priority (JSON_stringify env data))).

(** [poll] runs in two steps around its [await]: the [BZPOPMAX] command goes
    out, and later its reply, taken from the sorted set at that moment, is
    turned into an entry. *)
Definition judgeQueue_poll_request (timeout : Z) : M (Server Detail) unit :=
  perform (redis_BZPOPMAX timeout).

Definition judgeQueue_poll_reply : M (Server Detail) (option Entry) :=
  z ← gets redis_judge;
  match Redis.bzpopmax z with
  | (None, _) => mret None
  | (Some (member, score), z') =>
      modify (set_redis_judge (λ _, z')) ;;
      match JSON_parse env member with
      | Some d => mret (Some {| data := d; priority := score |})
      | None => throw (SyntaxError member)
      end
  end.

Definition judgeQueue_poll (timeout : Z) : M (Server Detail) (option Entry) :=
  judgeQueue_poll_request timeout ;; judgeQueue_poll_reply.

(** *** The waitForTask handler (lines 52-99) *)

(** Lines 76-98, reached once the loop is left with [obj]. *)
Definition waitForTask_dispatch (obj : option Entry) : M World unit :=
  id ← gets (λ w : World, socket_id w.1);
  match obj with
  | None =>
      server (perform (winston_verbose
        ("Judge client " +:+ id +:+ " disconnected, stop poll the queue.")))
  | Some obj =>
      connected ← gets (λ w : World, socket_connected w.1);
      if negb connected then
        server (perform (winston_verbose
          ("Judge client " +:+ id +:+
           " got task but disconnected re-pushing task to queue."))) ;;
        server (judgeQueue_push (data obj) (priority obj))
      else
        let task := data obj in
        modify (λ w : World, (set_pendingAckTaskObj (Some obj) w.1, w.2)) ;;
        server (perform (winston_verbose
          ("Sending task " +:+ taskId (content task) +:+
           " to judge client " +:+ id +:+ "."))) ;;
        server (perform (socket_emit_onTask (msgPack_encode env task)))
  end.

(** The loop test of line 72 with the current [obj]: either the handler
    calls [judgeQueue.poll(10)] and suspends at the [await], or the loop is
    left. *)
Definition waitForTask_while (obj : option Entry) : M World unit :=
  connected ← gets (λ w : World, socket_connected w.1);
  if connected && negb (bool_decide (is_Some obj)) then
    server (judgeQueue_poll_request 10) ;;
    modify (λ w : World, (set_polling S w.1, w.2))
  else
    waitForTask_dispatch obj.

(** Lines 52-72: from the event to the first [await]. *)
Definition on_waitForTask (token : string) : M World unit :=
  id ← gets (λ w : World, socket_id w.1);
  if decide (token ≠ judge_token env) then
    server (perform (winston_warn
      ("Judge client " +:+ id +:+ " emitted waitForTask with invalid token.")))
  else
    server (perform ack) ;;
    waiting ← gets (λ w : World, waitingForTask w.1);
    if (waiting : bool) then
      server (perform (winston_verbose
        ("Judge client " +:+ id +:+
         " emitted waitForTask, but already waiting, ignoring.")))
    else
      modify (λ w : World, (set_waitingForTask true w.1, w.2)) ;;
      server (perform (winston_verbose
        ("Judge client " +:+ id +:+ " emitted waitForTask."))) ;;
      waitForTask_while None.

(** Line 73 resuming: a suspended invocation gets the reply to its
    [judgeQueue.poll(10)] and goes back to the loop test.  Nothing happens
    when no invocation is suspended. *)
Definition on_poll_resolved : M World unit :=
  n ← gets (λ w : World, polling w.1);
  match n with
  | O => skip
  | S _ =>
      modify (λ w : World, (set_polling pred w.1, w.2)) ;;
      obj ← server judgeQueue_poll_reply;
      waitForTask_while obj
  end.

(** Lines 93-98: the acknowledgement callback passed to [socket.emit]. *)
Definition on_onTask_acked (task : Task) : M World unit :=
  id ← gets (λ w : World, socket_id w.1);
  server (perform (winston_verbose
    ("Judge client " +:+ id +:+ " acked task " +:+
     taskId (content task) +:+ "."))) ;;
  modify (λ w : World, (set_pendingAckTaskObj None w.1, w.2)) ;;
  modify (λ w : World, (set_waitingForTask false w.1, w.2)).

(** *** The disconnect handler (lines 101-109)

    The socket marks itself disconnected before it runs the handler. *)
Definition on_disconnect (reason : string) : M World unit :=
  modify (λ w : World, (set_socket_connected false w.1, w.2)) ;;
  id ← gets (λ w : World, socket_id w.1);
  server (perform (winston_info
    ("Judge client " +:+ id +:+ " disconnected, reason = " +:+
     util_inspect env reason +:+ "."))) ;;
  pending ← gets (λ w : World, pendingAckTaskObj w.1);
  match pending with
  | Some obj =>
      server (perform (winston_warn
        ("Re-pushing task " +:+ taskId (content (data obj)) +:+
         " to judge queue."))) ;;
      server (judgeQueue_push (data obj) (priority obj)) ;;
      modify (λ w : World, (set_pendingAckTaskObj None w.1, w.2))
  | None => skip
  end.

(** *** The reportProgress handler (lines 111-148) *)

(** [setTimeout(() => judgeStateCache.delete(id), delay)] *)
Definition setTimeout_delete (id : string) (delay : N) : M (Server Detail) unit :=
  t ← gets now;
  modify (set_timers (λ l, (l ++ [((t + delay)%N, id)])%list)).

Definition on_reportProgress (token : string) (payload : list byte) : M World unit :=
  id ← gets (λ w : World, socket_id w.1);
  if decide (token ≠ judge_token env) then
    server (perform (winston_warn
      ("Judge client " +:+ id +:+ " emitted reportProgress with invalid token.")))
  else
    let progress := msgPack_decode env payload in
    server (perform (winston_verbose
      ("Got progress from progress exchange, id: " +:+ report_taskId progress))) ;;
    if decide (report_type progress = Started env) then
      server (perform (progressPusher_createTask (report_taskId progress))) ;;
      server (modify (set_judgeStateCache (insert (report_taskId progress)
        {| snap_result := "Compiling"; snap_score := 0;
           snap_time := 0; snap_memory := 0 |})))
    else if decide (report_type progress = Compiled env) then
      server (perform (progressPusher_updateCompileStatus
        (report_taskId progress) (report_progress progress)))
    else if decide (report_type progress = Progress env) then
      let convertedResult :=
        convertResult env (report_taskId progress) (report_progress progress) in
      server (modify (set_judgeStateCache (insert (report_taskId progress)
        {| snap_result := getRunningTaskStatusString (report_progress progress);
           snap_score := cr_score convertedResult;
           snap_time := cr_time convertedResult;
           snap_memory := cr_memory convertedResult |}))) ;;
      server (perform (progressPusher_updateProgress
        (report_taskId progress) (report_progress progress)))
    else if decide (report_type progress = Finished env) then
      server (perform (progressPusher_updateResult
        (report_taskId progress) (report_progress progress))) ;;
      server (setTimeout_delete (report_taskId progress) 5000)
    else if decide (report_type progress = Reported env) then
      server (perform (progressPusher_cleanupProgress (report_taskId progress)))
    else
      skip.

(** *** The reportResult handler (lines 150-187) *)

(** [JudgeState.findOne({ where: { task_id } })] *)
Definition JudgeState_findOne (task_id : string)
    : M (Server Detail) (option (JudgeState Detail)) :=
  gets (λ sv, judge_state_table sv !! task_id).

(** [judge_state.save()] for the row found under [task_id] *)
Definition save (task_id : string) (row : JudgeState Detail) : M (Server Detail) unit :=
  perform (judge_state_save row) ;;
  modify (set_judge_state_table (insert task_id row)).

Definition on_reportResult (token : string) (payload : list byte) : M World unit :=
  id ← gets (λ w : World, socket_id w.1);
  if decide (token ≠ judge_token env) then
    server (perform (winston_warn
      ("Judge client " +:+ id +:+ " emitted reportResult with invalid token.")))
  else
    let result := msgPack_decode env payload in
    server (perform (winston_verbose
      ("Received report for task " +:+ report_taskId result))) ;;
    judge_state ← server (JudgeState_findOne (report_taskId result));
    if decide (report_type result = Finished env) then
      let convertedResult :=
        convertResult env (report_taskId result) (report_progress result) in
      server (perform (winston_verbose
        ("Reporting report finished: " +:+ report_taskId result))) ;;
      server (perform (progressPusher_cleanupProgress (report_taskId result))) ;;
      match judge_state with
      | None => skip
      | Some judge_state =>
          let judge_state :=
            {| js_task_id := js_task_id judge_state;
               js_language := js_language judge_state;
               js_code := js_code judge_state;
               js_score := cr_score convertedResult;
               js_pending := false;
               js_status := cr_statusString convertedResult;
               js_total_time := cr_time convertedResult;
               js_max_memory := cr_memory convertedResult;
               js_result := Some (cr_result convertedResult);
               js_compilation := js_compilation judge_state |} in
          server (save (report_taskId result) judge_state) ;;
          server (perform (judge_state_updateRelatedInfo judge_state))
      end
    else if decide (report_type result = Compiled env) then
      match judge_state with
      | None => skip
      | Some judge_state =>
          let judge_state :=
            {| js_task_id := js_task_id judge_state;
               js_language := js_language judge_state;
               js_code := js_code judge_state;
               js_score := js_score judge_state;
               js_pending := js_pending judge_state;
               js_status := js_status judge_state;
               js_total_time := js_total_time judge_state;
               js_max_memory := js_max_memory judge_state;
               js_result := js_result judge_state;
               js_compilation := Some (report_progress result) |} in
          server (save (report_taskId result) judge_state)
      end
    else
      server (perform (winston_error
        ("Unsupported result type: " +:+ pretty (report_type result)))).

(** *** Timers

    [ms] milliseconds pass: the clock advances and every [setTimeout]
    callback that has come due runs, deleting its cache entry. *)
Definition is_due (t : N) (timer : N * string) : bool := bool_decide (timer.1 ≤ t)%N.

Definition on_time_passes (ms : N) : M (Server Detail) unit :=
  modify (set_now (λ t, (t + ms)%N)) ;;
  t ← gets now;
  due ← gets (λ sv, List.filter (is_due t) (timers sv));
  modify (set_judgeStateCache (λ c, foldl (λ c timer, delete timer.2 c) c due)) ;;
  modify (set_timers (List.filter (λ timer, negb (is_due t timer)))).

(** *** judge (lines 192-234)

    [judgeQueue] is the object that [connect] has installed. *)

Definition judge (judge_state : JudgeState Detail) (problem : Problem) (priority : Z)
    : M (Server Detail) unit :=
  '(type, param, extraData) ←
    (if decide (problem_type problem = "submit-answer") then
       match readFileAsync env (resolvePath env "answer" (js_code judge_state)) with
       | Some bytes => mret (AnswerSubmission env, None, Some bytes)
       | None => throw (ReadFileError (resolvePath env "answer" (js_code judge_state)))
       end
     else if decide (problem_type problem = "interaction") then
       mret (Interaction env,
             Some (InteractionParam (js_language judge_state) (js_code judge_state)
                     (time_limit problem) (memory_limit problem)),
             None)
     else
       mret (Standard env,
             Some (StandardParam (js_language judge_state) (js_code judge_state)
                     (time_limit problem) (memory_limit problem)
                     (if file_io problem then file_io_input_name problem else None)
                     (if file_io problem then file_io_output_name problem else None)),
             None));
  let content :=
    {| taskId := js_task_id judge_state;
       testData := pretty (problem_id problem);
       type := type;
       content_priority := priority;
       param := param |} in
  judgeQueue_push {| content := content; extraData := extraData |} priority.

(** [getCachedJudgeState] (line 236) *)
Definition getCachedJudgeState (id : string) (sv : Server Detail) : option Snapshot :=
  judgeStateCache sv !! id.

(** *** Events of one connection *)

Inductive Event :=
| waitForTask (token : string)
| poll_resolved
| onTask_acked (task : Task)
| disconnect (reason : string)
| reportProgress (token : string) (payload : list byte)
| reportResult (token : string) (payload : list byte)
| time_passes (ms : N).

Definition handle (ev : Event) : M World unit :=
  match ev with
  | waitForTask token => on_waitForTask token
  | poll_resolved => on_poll_resolved
  | onTask_acked task => on_onTask_acked task
  | disconnect reason => on_disconnect reason
  | reportProgress token payload => on_reportProgress token payload
  | reportResult token payload => on_reportResult token payload
  | time_passes ms => server (on_time_passes ms)
  end.

(** An exception ends the handler that raised it (a rejected promise of an
    [async] listener); the state it left behind stays. *)
Definition after (ev : Event) (w : World) : World := (handle ev w).2.

Definition run (evs : list Event) (w : World) : World := foldl (λ w ev, after ev w) w evs.

(** *** Vocabulary for the properties *)

(** [sv] after the calls [es] were made, nothing else changed. *)
Definition performed (es : list (Effect Detail)) (sv : Server Detail) : Server Detail :=
  set_effects (λ l, (l ++ es)%list) sv.

(** The closure as the ['connect'] callback creates it (line 51). *)
Definition connect (id : string) : Session :=
  {| socket_id := id; socket_connected := true;
     pendingAckTaskObj := None; waitingForTask := false; polling := 0 |}.

(** When the transport can deliver an event: socket events arrive on a
    connected socket, a poll resolves only for a suspended invocation, and
    the worker acknowledges only the task that was emitted to it and is
    still pending. *)
Definition enabled (ev : Event) (c : Session) : bool :=
  match ev with
  | waitForTask _ | reportProgress _ _ | reportResult _ _ | disconnect _ =>
      socket_connected c
  | poll_resolved => bool_decide (polling c ≠ 0%nat)
  | onTask_acked task =>
      socket_connected c && bool_decide (data <$> pendingAckTaskObj c = Some task)
  | time_passes _ => true
  end.

Fixpoint run_enabled (evs : list Event) (w : World) : bool :=
  match evs with
  | [] => true
  | ev :: evs => enabled ev w.1 && run_enabled evs (after ev w)
  end.

Definition is_ack (ev : Event) : bool :=
  match ev with onTask_acked _ => true | _ => false end.

(** What holds of the closure between events: a task awaiting its
    acknowledgement belongs to a connected, waiting session with no poll
    suspended; otherwise at most one poll is suspended, and only while
    [waitingForTask] is set. *)
Definition session_inv (c : Session) : bool :=
  match pendingAckTaskObj c, polling c with
  | Some _, O => waitingForTask c && socket_connected c
  | None, O => true
  | None, S O => waitingForTask c
  | _, _ => false
  end.

(** A member that [JSON.parse] reads back to a value that [JSON.stringify]
    prints as the same member, as every member written by [push] is. *)
Definition roundtrips (member : string) : bool :=
  match JSON_parse env member with
  | Some d => bool_decide (JSON_stringify env d = member)
  | None => false
  end.

Definition queue_wf (z : gmap string Z) : bool :=
  bool_decide (map_Forall (λ member _, roundtrips member = true) z).

(** The entries this connection answers for: the queue, together with the
    entry it has polled and not yet seen acknowledged. *)
Definition custody (w : World) : gmap string Z :=
  match pendingAckTaskObj w.1 with
  | Some obj => Redis.zadd (priority obj) (JSON_stringify env (data obj)) (redis_judge w.2)
  | None => redis_judge w.2
  end.

Definition is_disconnect (ev : Event) : bool :=
  match ev with disconnect _ => true | _ => false end.

(** The events of a connection end in a disconnect before the
    acknowledgement: the connection disconnects and the worker never
    acknowledges a task. *)
Definition pre_ack_disconnect (evs : list Event) : bool :=
  forallb (λ ev, negb (is_ack ev)) evs && existsb is_disconnect evs.

(** A dispatch attempt on a new connection [id]: the events [evs] of that
    connection, run against the shared state. *)
Definition attempt (id : string) (evs : list Event) (sv : Server Detail) : Server Detail :=
  (run evs (connect id, sv)).2.

(** Attempts one after the other, each on its own connection. *)
Definition attempts (l : list (string * list Event)) (sv : Server Detail) : Server Detail :=
  foldl (λ sv a, attempt a.1 a.2 sv) sv l.

(** All test cases of a payload, and the finished ones among them. *)
Definition allCases (result : ProgressPayload) : list TestcaseResult :=
  concat (map cases (subtasks (result_judge result))).

Definition finishedCases (result : ProgressPayload) : list TestcaseResult :=
  filter (λ curr, status curr ∉ [0; 1]) (allCases result).

(** The enum values of [interface.ProgressReportType] are pairwise distinct. *)
Definition ProgressReportType_distinct : bool :=
  bool_decide (NoDup [Started env; Compiled env; Progress env; Finished env; Reported env]).

(** *** Counting calls in a trace *)

Definition is_emit (e : Effect Detail) : bool :=
  match e with socket_emit_onTask _ => true | _ => false end.

Definition is_ack_call (e : Effect Detail) : bool :=
  match e with ack => true | _ => false end.

Definition is_ZADD (e : Effect Detail) : bool :=
  match e with redis_ZADD _ _ => true | _ => false end.

Definition count (p : Effect Detail → bool) (es : list (Effect Detail)) : nat :=
  length (List.filter p es).

(** A connected session that has been told to wait and holds no task yet:
    the one situation from which a task can still be emitted. *)
Definition may_emit (c : Session) : nat :=
  if socket_connected c && waitingForTask c
     && negb (bool_decide (is_Some (pendingAckTaskObj c)))
  then 1 else 0.

(** An authenticated [reportProgress] of type Finished for task [id]. *)
Definition is_Finished_for (id : string) (ev : Event) : bool :=
  match ev with
  | reportProgress token payload =>
      bool_decide (token = judge_token env)
      && bool_decide (report_type (msgPack_decode env payload) = Finished env)
      && bool_decide (report_taskId (msgPack_decode env payload) = id)
  | _ => false
  end.

End Judger.

(** ** A concrete instance

    A small configuration on which the statements below are exercised. *)
Module Demo.

Definition task (id : string) : Task :=
  {| content := {| taskId := id; testData := "1"; type := 1;
                   content_priority := 0; param := None |};
     extraData := None |}.

Definition progress : ProgressPayload :=
  {| result_judge := {| subtasks :=
       [ {| cases := [ {| status := 2 |}; {| status := 0 |} ] |};
         {| cases := [ {| status := 5 |}; {| status := 9 |} ] |} ] |} |}.

(** Queue members are task ids; a report's type is its first payload byte. *)
Definition env : Imports unit :=
  {| judge_token := "secret";
     JSON_stringify := λ t, taskId (content t);
     JSON_parse := λ s, Some (task s);
     msgPack_encode := λ _, [];
     msgPack_decode := λ payload,
       {| report_taskId := "T1";
          report_type := match payload with
                         | b :: _ => Z.of_N (Byte.to_N b)
                         | [] => 0
                         end;
          report_progress := progress |};
     convertResult := λ _ _,
       {| cr_score := 75; cr_statusString := "Accepted"; cr_time := 12;
          cr_memory := 34; cr_result := tt |};
     Started := 1; Compiled := 2; Progress := 3; Finished := 4; Reported := 5;
     Standard := 1; AnswerSubmission := 2; Interaction := 3;
     readFileAsync := λ path,
       if decide (path = "answer/ok") then Some [x01; x02] else None;
     resolvePath := λ kind name, kind +:+ "/" +:+ name;
     util_inspect := λ s, s |}.

Definition row : JudgeState unit :=
  {| js_task_id := "T1"; js_language := "cpp"; js_code := "ok";
     js_score := 0; js_pending := true; js_status := "Waiting";
     js_total_time := 0; js_max_memory := 0;
     js_result := None; js_compilation := None |}.

Definition sv : Server unit :=
  {| redis_judge := {[ "A" := 5; "B" := 10 ]};
     judgeStateCache := ∅;
     judge_state_table := {[ "T1" := row ]};
     timers := []; now := 0; effects := [] |}.

(** The same server without a judge_state row. *)
Definition sv_untracked : Server unit :=
  {| redis_judge := {[ "A" := 5; "B" := 10 ]};
     judgeStateCache := ∅;
     judge_state_table := ∅;
     timers := []; now := 0; effects := [] |}.

(** A session in the middle of its poll loop. *)
Definition waiting : Session :=
  {| socket_id := "s1"; socket_connected := true;
     pendingAckTaskObj := None; waitingForTask := true; polling := 1 |}.

Definition problem (type : string) : Problem :=
  {| problem_id := 7; problem_type := type; time_limit := 1000;
     memory_limit := 256; file_io := false;
     file_io_input_name := None; file_io_output_name := None |}.

(** A server with nothing queued. *)
Definition sv_idle : Server unit :=
  {| redis_judge := ∅;
     judgeStateCache := ∅;
     judge_state_table := {[ "T1" := row ]};
     timers := []; now := 0; effects := [] |}.


(** The same collaborators with a parser that rejects one member. *)
Definition env_strict : Imports unit :=
  {| judge_token := "secret";
     JSON_stringify := λ t, taskId (content t);
     JSON_parse := λ s, if decide (s = "{oops") then None else Some (task s);
     msgPack_encode := λ _, [];
     msgPack_decode := msgPack_decode env;
     convertResult := convertResult env;
     Started := 1; Compiled := 2; Progress := 3; Finished := 4; Reported := 5;
     Standard := 1; AnswerSubmission := 2; Interaction := 3;
     readFileAsync := readFileAsync env;
     resolvePath := resolvePath env;
     util_inspect := util_inspect env |}.

(** A queue whose highest member is not JSON. *)
Definition sv_poisoned : Server unit :=
  {| redis_judge := {[ "A" := 5; "{oops" := 10 ]};
     judgeStateCache := ∅;
     judge_state_table := ∅;
     timers := []; now := 0; effects := [] |}.

End Demo.

(** * Properties *)

(** ** The sorted set *)
Module RedisFacts.
Import Redis.

Lemma zle_refl a : zle a a = true.
Proof.
  unfold zle. rewrite decide_True by done.
  destruct (String.leb_total a.1 a.1); done.
Qed.

Lemma zle_total a b : zle a b = true ∨ zle b a = true.
Proof.
  unfold zle. destruct (decide (a.2 = b.2)) as [e|n].
  - rewrite decide_True by done. apply String.leb_total.
  - rewrite decide_False by done.
    destruct (decide (a.2 < b.2)).
    + left. by apply bool_decide_eq_true.
    + right. apply bool_decide_eq_true. lia.
Qed.

Lemma zle_trans a b c : zle a b = true → zle b c = true → zle a c = true.
Proof.
  unfold zle. intros Hab Hbc.
  destruct (decide (a.2 = b.2)) as [e1|n1], (decide (b.2 = c.2)) as [e2|n2].
  - rewrite decide_True by congruence.
    unfold String.leb in *.
    destruct (String.compare a.1 b.1) eqn:E1; try done;
      destruct (String.compare b.1 c.1) eqn:E2; try done.
    + apply String.compare_eq_iff in E1. by rewrite E1, E2.
    + apply String.compare_eq_iff in E1. by rewrite E1, E2.
    + apply String.compare_eq_iff in E2. by rewrite <- E2, E1.
    + assert (String.compare a.1 c.1 = Lt) as ->; [|done].
      revert E1 E2. generalize a.1 b.1 c.1. clear.
      intros s1. induction s1 as [|x s1 IH]; intros [|y s2] [|z s3]; simpl; try done.
      destruct (Ascii.compare x y) eqn:Exy; try done;
        destruct (Ascii.compare y z) eqn:Eyz; try done; intros H1 H2.
      * apply Ascii.compare_eq_iff in Exy, Eyz. subst.
        assert (Ascii.compare z z = Eq) as ->
          by (unfold Ascii.compare; apply N.compare_refl).
        eauto.
      * apply Ascii.compare_eq_iff in Exy. subst. by rewrite Eyz.
      * apply Ascii.compare_eq_iff in Eyz. subst. by rewrite Exy.
      * assert (Ascii.compare x z = Lt) as ->; [|done].
        unfold Ascii.compare in *. rewrite N.compare_lt_iff in *. lia.
  - rewrite decide_False by congruence.
    apply bool_decide_eq_true in Hbc. apply bool_decide_eq_true. lia.
  - rewrite decide_False by congruence.
    apply bool_decide_eq_true in Hab. apply bool_decide_eq_true. lia.
  - apply bool_decide_eq_true in Hab, Hbc.
    rewrite decide_False by lia. apply bool_decide_eq_true. lia.
Qed.

(** [zmax] returns a member of the set, with its score, that is greatest in
    the sorted-set order; it returns nothing exactly on the empty set. *)
Lemma zmax_spec (z : gmap string Z) :
  match zmax z with
  | None => z = ∅
  | Some (m, s) => z !! m = Some s ∧
                   ∀ m' s', z !! m' = Some s' → zle (m', s') (m, s) = true
  end.
Proof.
  unfold zmax.
  apply (map_fold_weak_ind (λ r (z : gmap string Z),
    match r with
    | None => z = ∅
    | Some (m, s) => z !! m = Some s ∧
                     ∀ m' s', z !! m' = Some s' → zle (m', s') (m, s) = true
    end)); [done|].
  intros i x m r Hi IH. unfold zmax_step.
  destruct r as [[bm bs]|].
  - destruct IH as [Hb Hmax].
    destruct (zle (bm, bs) (i, x)) eqn:E.
    + split; [by rewrite lookup_insert_eq|].
      intros m' s'. rewrite lookup_insert. case_decide as Hd.
      * intros [= <-]. subst. apply zle_refl.
      * intros H. eapply zle_trans; [by apply Hmax|done].
    + split.
      * rewrite lookup_insert_ne; [done|]. intros ->. congruence.
      * intros m' s'. rewrite lookup_insert. case_decide as Hd.
        -- intros [= <-]. subst.
           destruct (zle_total (bm, bs) (m', x)); congruence.
        -- apply Hmax.
  - subst. split; [by rewrite lookup_insert_eq|].
    intros m' s'. rewrite lookup_insert. case_decide as Hd.
    + intros [= <-]. subst. apply zle_refl.
    + by rewrite lookup_empty.
Qed.

Lemma bzpopmax_Some (z z' : gmap string Z) m s :
  bzpopmax z = (Some (m, s), z') → z !! m = Some s ∧ z' = delete m z.
Proof.
  unfold bzpopmax. pose proof (zmax_spec z) as H.
  destruct (zmax z) as [[m0 s0]|]; [|done].
  intros [= -> -> <-]. by destruct H.
Qed.

Lemma bzpopmax_None (z z' : gmap string Z) :
  bzpopmax z = (None, z') → z = ∅ ∧ z' = z.
Proof.
  unfold bzpopmax. pose proof (zmax_spec z) as H.
  destruct (zmax z) as [[m0 s0]|]; [done|]. by intros [= <-].
Qed.

(** Re-adding the popped member with the popped score restores the set. *)
Lemma zadd_bzpopmax (z z' : gmap string Z) m s :
  bzpopmax z = (Some (m, s), z') → zadd s m z' = z.
Proof.
  intros [Hm ->]%bzpopmax_Some. unfold zadd.
  rewrite insert_delete_eq. by apply insert_id.
Qed.

End RedisFacts.

(** ** The handlers *)

(** Unfold a handler body down to the state it computes. *)
Ltac exec :=
  unfold after, handle, on_waitForTask, on_reportProgress, on_reportResult,
    on_disconnect, on_poll_resolved, on_onTask_acked, on_time_passes,
    waitForTask_while, waitForTask_dispatch, judge,
    judgeQueue_push, judgeQueue_poll, judgeQueue_poll_request,
    judgeQueue_poll_reply, JudgeState_findOne, save,
    setTimeout_delete, perform, server, skip, throw, gets, modify,
    mbind, M_bind, mret, M_ret;
  cbn.

(** Close a goal that compares two ways of writing the same appended calls. *)
Ltac done_performed :=
  unfold performed, set_effects, set_redis_judge, set_judgeStateCache,
    set_judge_state_table, set_timers, set_now; cbn;
  rewrite <- ?app_assoc; cbn; done.

Section JudgerFacts.
Context {Detail : Type} (env : Imports Detail).

Local Abbreviation World := (Session * Server Detail)%type.

Lemma performed_nil (sv : Server Detail) : performed [] sv = sv.
Proof. destruct sv. unfold performed, set_effects. cbn. by rewrite app_nil_r. Qed.

Lemma performed_app es1 es2 (sv : Server Detail) :
  performed es2 (performed es1 sv) = performed (es1 ++ es2)%list sv.
Proof. unfold performed, set_effects. cbn. by rewrite app_assoc. Qed.

Lemma distinct_enum :
  ProgressReportType_distinct env = true →
  Started env ≠ Compiled env ∧ Started env ≠ Progress env ∧
  Started env ≠ Finished env ∧ Started env ≠ Reported env ∧
  Compiled env ≠ Progress env ∧ Compiled env ≠ Finished env ∧
  Compiled env ≠ Reported env ∧ Progress env ≠ Finished env ∧
  Progress env ≠ Reported env ∧ Finished env ≠ Reported env.
Proof.
  unfold ProgressReportType_distinct. intros H%bool_decide_eq_true.
  repeat match goal with
         | H : NoDup (_ :: _) |- _ => apply NoDup_cons in H as [? ?]
         end.
  set_solver.
Qed.

(** C7: an inbound [waitForTask], [reportProgress] or [reportResult] whose
    token differs from the configured secret makes exactly one call, a
    [winston.warn]; the handler returns normally, the closure of the
    connection and every part of the shared state (queue, cache, judge_state
    table, timers) stay as they were, and the [ack] callback is not called. *)
Theorem invalid_token_is_dropped (c : Session) (sv : Server Detail)
    (token : string) (payload : list byte) :
  token ≠ judge_token env →
  on_waitForTask env token (c, sv) =
    (inr (), (c, performed [winston_warn
       ("Judge client " +:+ socket_id c +:+
        " emitted waitForTask with invalid token.")] sv)) ∧
  on_reportProgress env token payload (c, sv) =
    (inr (), (c, performed [winston_warn
       ("Judge client " +:+ socket_id c +:+
        " emitted reportProgress with invalid token.")] sv)) ∧
  on_reportResult env token payload (c, sv) =
    (inr (), (c, performed [winston_warn
       ("Judge client " +:+ socket_id c +:+
        " emitted reportResult with invalid token.")] sv)).
Proof.
  intros Htoken. repeat split; exec; by rewrite decide_True.
Qed.

(** C2 (as the code has it): an authenticated [reportResult] of type
    Finished whose task has no judge_state row returns normally; it writes
    its two verbose lines and calls [progressPusher.cleanupProgress], both
    before it looks at the row, and nothing else: no row is created, changed
    or saved, [updateRelatedInfo] is not called, and the closure, the queue,
    the cache and the timers stay as they were. *)
Theorem reportResult_Finished_untracked (c : Session) (sv : Server Detail)
    (payload : list byte) :
  let result := msgPack_decode env payload in
  report_type result = Finished env →
  judge_state_table sv !! report_taskId result = None →
  on_reportResult env (judge_token env) payload (c, sv) =
    (inr (), (c, performed
       [winston_verbose ("Received report for task " +:+ report_taskId result);
        winston_verbose ("Reporting report finished: " +:+ report_taskId result);
        progressPusher_cleanupProgress (report_taskId result)] sv)).
Proof.
  intros result Htype Hrow. exec.
  rewrite decide_False by (intros H; by apply H).
  cbn. fold result. rewrite Hrow, decide_True by done. cbn.
  done_performed.
Qed.


(** C10: a [reportResult] of type Compiled that finds a row stores the
    payload in the row's [compilation] field and saves the row; the fields
    score, pending, status, total_time, max_memory and result keep their
    values, the only calls made are the log line and the save (so
    [updateRelatedInfo] is not called), and nothing else changes. *)
Theorem reportResult_Compiled_touches_compilation_only (c : Session)
    (sv : Server Detail) (payload : list byte) (row : JudgeState Detail) :
  let result := msgPack_decode env payload in
  ProgressReportType_distinct env = true →
  report_type result = Compiled env →
  judge_state_table sv !! report_taskId result = Some row →
  ∃ row' : JudgeState Detail,
    on_reportResult env (judge_token env) payload (c, sv) =
      (inr (), (c, set_judge_state_table (insert (report_taskId result) row')
         (performed
            [winston_verbose ("Received report for task " +:+ report_taskId result);
             judge_state_save row'] sv))) ∧
    js_compilation row' = Some (report_progress result) ∧
    js_score row' = js_score row ∧
    js_pending row' = js_pending row ∧
    js_status row' = js_status row ∧
    js_total_time row' = js_total_time row ∧
    js_max_memory row' = js_max_memory row ∧
    js_result row' = js_result row ∧
    js_task_id row' = js_task_id row ∧
    js_language row' = js_language row ∧
    js_code row' = js_code row.
Proof.
  intros result Hd Htype Hrow.
  apply distinct_enum in Hd as (_ & _ & _ & _ & _ & Hcf & _).
  eexists. split; [|shelve].
  { exec. rewrite decide_False by (intros H; by apply H).
    cbn. fold result. rewrite Hrow, decide_False by congruence.
    rewrite decide_True by done. cbn. done_performed. }
  Unshelve. repeat split; reflexivity.
Qed.

(** A [reportProgress] whose type is none of the five enum values only
    writes the verbose line that every authenticated report gets. *)
Lemma reportProgress_unknown_type (c : Session) (sv : Server Detail)
    (payload : list byte) :
  let progress := msgPack_decode env payload in
  report_type progress ∉
    [Started env; Compiled env; Progress env; Finished env; Reported env] →
  on_reportProgress env (judge_token env) payload (c, sv) =
    (inr (), (c, performed
       [winston_verbose
          ("Got progress from progress exchange, id: " +:+ report_taskId progress)]
       sv)).
Proof.
  intros progress Htype. exec.
  rewrite decide_False by (intros H; by apply H). cbn. fold progress.
  rewrite !decide_False by set_solver. done.
Qed.


(** The loop of [getRunningTaskStatusString] counts the cases of all
    subtasks, and among them those whose status is neither 0 nor 1. *)
Lemma countCases_spec (result : ProgressPayload) :
  countCases result =
    (length (finishedCases result), length (allCases result)).
Proof.
  unfold countCases, finishedCases, allCases.
  generalize (subtasks (result_judge result)). intros l.
  cut (∀ f t,
    foldl (λ acc subtask,
             foldl (λ '(allFinished, allTotal) curr,
                      (if isPending (status curr) then allFinished else S allFinished,
                       S allTotal))
                   acc (cases subtask)) (f, t) l =
    (Nat.add f (length (filter (λ curr, status curr ∉ [0; 1]) (concat (map cases l)))),
     Nat.add t (length (concat (map cases l))))).
  { intros H. apply (H 0%nat 0%nat). }
  induction l as [|subtask l IH]; intros f t.
  { cbn. f_equal; lia. }
  assert (∀ cs f t,
    foldl (λ '(allFinished, allTotal) curr,
             (if isPending (status curr) then allFinished else S allFinished,
              S allTotal)) (f, t) cs =
    (Nat.add f (length (filter (λ curr, status curr ∉ [0; 1]) cs)),
     Nat.add t (length cs))) as Hinner.
  { clear. induction cs as [|curr cs IH]; intros f t.
    - cbn. f_equal; lia.
    - rewrite filter_cons. cbn [foldl]. rewrite IH. unfold isPending.
      destruct (decide (status curr ∉ [0; 1])) as [Hn|Hn].
      + rewrite bool_decide_eq_false_2 by done. cbn [length]. f_equal; lia.
      + rewrite bool_decide_eq_true_2 by (by apply dec_stable).
        cbn [length]. f_equal; lia. }
  cbn [foldl map concat]. rewrite Hinner, IH, filter_app, !length_app.
  f_equal; lia.
Qed.

(** C3: an authenticated [reportProgress] of type Progress sets the cache
    entry of its task to a snapshot whose [result] is
    ["Running <finished>/<total>"], where total counts the cases of all
    subtasks and finished those whose status is neither 0 nor 1, and whose
    score, time and memory are the ones [convertResult] returns; with 3 of 4
    cases finished the string is ["Running 3/4"]. *)
Theorem reportProgress_Progress_caches_running_counts (c : Session)
    (sv : Server Detail) (payload : list byte) :
  let progress := msgPack_decode env payload in
  let id := report_taskId progress in
  let convertedResult := convertResult env id (report_progress progress) in
  ProgressReportType_distinct env = true →
  report_type progress = Progress env →
  ∃ snapshot : Snapshot,
    on_reportProgress env (judge_token env) payload (c, sv) =
      (inr (), (c, performed
         [winston_verbose ("Got progress from progress exchange, id: " +:+ id);
          progressPusher_updateProgress id (report_progress progress)]
         (set_judgeStateCache (insert id snapshot) sv))) ∧
    getCachedJudgeState id
      (after env (reportProgress (judge_token env) payload) (c, sv)).2
      = Some snapshot ∧
    snap_result snapshot =
      "Running " +:+ pretty (length (finishedCases (report_progress progress)))
        +:+ "/" +:+ pretty (length (allCases (report_progress progress))) ∧
    snap_score snapshot = cr_score convertedResult ∧
    snap_time snapshot = cr_time convertedResult ∧
    snap_memory snapshot = cr_memory convertedResult ∧
    (length (finishedCases (report_progress progress)) = 3%nat →
     length (allCases (report_progress progress)) = 4%nat →
     snap_result snapshot = "Running 3/4").
Proof.
  intros progress id convertedResult Hd Htype.
  apply distinct_enum in Hd as (_ & Hsp & _ & _ & Hcp & _).
  assert (on_reportProgress env (judge_token env) payload (c, sv) =
    (inr (), (c, performed
       [winston_verbose ("Got progress from progress exchange, id: " +:+ id);
        progressPusher_updateProgress id (report_progress progress)]
       (set_judgeStateCache (insert id
          {| snap_result := getRunningTaskStatusString (report_progress progress);
             snap_score := cr_score convertedResult;
             snap_time := cr_time convertedResult;
             snap_memory := cr_memory convertedResult |}) sv)))) as Hrun.
  { exec. rewrite decide_False by (intros H; by apply H). cbn. fold progress.
    rewrite !decide_False by congruence. rewrite decide_True by done.
    cbn. done_performed. }
  eexists. split; [exact Hrun|].
  assert (getRunningTaskStatusString (report_progress progress) =
    "Running " +:+ pretty (length (finishedCases (report_progress progress)))
      +:+ "/" +:+ pretty (length (allCases (report_progress progress)))) as Hstr.
  { unfold getRunningTaskStatusString. by rewrite countCases_spec. }
  repeat split; cbn.
  - unfold after, handle. rewrite Hrun. cbn.
    unfold getCachedJudgeState. cbn. by rewrite lookup_insert_eq.
  - exact Hstr.
  - intros H3 H4. by rewrite Hstr, H3, H4.
Qed.

(** *** The cache and its timers *)

Lemma lookup_foldl_delete (due : list (N * string))
    (cache : gmap string Snapshot) (id : string) :
  foldl (λ c timer, delete timer.2 c) cache due !! id =
    if existsb (λ timer, bool_decide (timer.2 = id)) due then None
    else cache !! id.
Proof.
  revert cache. induction due as [|timer due IH]; intros cache; [done|].
  cbn [foldl existsb]. rewrite IH.
  destruct (existsb _ due); [by rewrite orb_true_r|].
  rewrite orb_false_r, lookup_delete.
  destruct (decide (timer.2 = id)).
  - by rewrite bool_decide_eq_true_2.
  - by rewrite bool_decide_eq_false_2.
Qed.

Lemma existsb_filter {A} (p q : A → bool) (l : list A) :
  existsb p (List.filter q l) = existsb (λ x, q x && p x) l.
Proof.
  induction l as [|x l IH]; [done|]. cbn.
  destruct (q x); cbn; by rewrite IH.
Qed.

(** When time passes, exactly the entries with a timer that has come due
    disappear from the cache. *)
Lemma time_passes_cache (c : Session) (sv : Server Detail) (ms : N) (id : string) :
  judgeStateCache (after env (time_passes ms) (c, sv)).2 !! id =
    if existsb (λ timer, is_due (now sv + ms) timer && bool_decide (timer.2 = id))
               (timers sv)
    then None else judgeStateCache sv !! id.
Proof.
  exec. rewrite lookup_foldl_delete. by rewrite existsb_filter.
Qed.

(** No handler other than a timer callback takes an entry out of the
    cache: it leaves the cache alone or sets one entry. *)
Lemma handlers_keep_cache_entries (ev : Event) (c : Session) (sv : Server Detail) :
  (∀ ms, ev ≠ time_passes ms) →
  judgeStateCache (after env ev (c, sv)).2 = judgeStateCache sv ∨
  ∃ id snapshot,
    judgeStateCache (after env ev (c, sv)).2 = <[id := snapshot]> (judgeStateCache sv).
Proof.
  intros Hev. destruct ev; try (by destruct (Hev ms)); exec;
    repeat first [ case_decide | case_match ]; simplify_eq; cbn; eauto.
Qed.

(** The branches of [reportProgress], one by one. *)
Lemma reportProgress_Started (c : Session) (sv : Server Detail) (payload : list byte) :
  let progress := msgPack_decode env payload in
  let id := report_taskId progress in
  report_type progress = Started env →
  on_reportProgress env (judge_token env) payload (c, sv) =
    (inr (), (c, performed
       [winston_verbose ("Got progress from progress exchange, id: " +:+ id);
        progressPusher_createTask id]
       (set_judgeStateCache (insert id
          {| snap_result := "Compiling"; snap_score := 0;
             snap_time := 0; snap_memory := 0 |}) sv))).
Proof.
  intros progress id Htype. exec.
  rewrite decide_False by (intros H; by apply H). cbn. fold progress.
  rewrite decide_True by done. cbn. done_performed.
Qed.

Lemma reportProgress_Compiled (c : Session) (sv : Server Detail) (payload : list byte) :
  let progress := msgPack_decode env payload in
  let id := report_taskId progress in
  ProgressReportType_distinct env = true →
  report_type progress = Compiled env →
  on_reportProgress env (judge_token env) payload (c, sv) =
    (inr (), (c, performed
       [winston_verbose ("Got progress from progress exchange, id: " +:+ id);
        progressPusher_updateCompileStatus id (report_progress progress)] sv)).
Proof.
  intros progress id Hd Htype.
  apply distinct_enum in Hd as (Hsc & _).
  exec. rewrite decide_False by (intros H; by apply H). cbn. fold progress.
  rewrite !decide_False by congruence. rewrite decide_True by done.
  cbn. done_performed.
Qed.

Lemma reportProgress_Finished (c : Session) (sv : Server Detail) (payload : list byte) :
  let progress := msgPack_decode env payload in
  let id := report_taskId progress in
  ProgressReportType_distinct env = true →
  report_type progress = Finished env →
  on_reportProgress env (judge_token env) payload (c, sv) =
    (inr (), (c, set_timers (λ l, (l ++ [((now sv + 5000)%N, id)])%list)
       (performed
          [winston_verbose ("Got progress from progress exchange, id: " +:+ id);
           progressPusher_updateResult id (report_progress progress)] sv))).
Proof.
  intros progress id Hd Htype.
  apply distinct_enum in Hd as (_ & _ & Hsf & _ & _ & Hcf & _ & Hpf & _).
  exec. rewrite decide_False by (intros H; by apply H). cbn. fold progress.
  rewrite !decide_False by congruence. rewrite decide_True by done.
  cbn. done_performed.
Qed.

Lemma reportProgress_Reported (c : Session) (sv : Server Detail) (payload : list byte) :
  let progress := msgPack_decode env payload in
  let id := report_taskId progress in
  ProgressReportType_distinct env = true →
  report_type progress = Reported env →
  on_reportProgress env (judge_token env) payload (c, sv) =
    (inr (), (c, performed
       [winston_verbose ("Got progress from progress exchange, id: " +:+ id);
        progressPusher_cleanupProgress id] sv)).
Proof.
  intros progress id Hd Htype.
  apply distinct_enum in Hd as (_ & _ & _ & Hsr & _ & _ & Hcr & _ & Hpr & Hfr).
  exec. rewrite decide_False by (intros H; by apply H). cbn. fold progress.
  rewrite !decide_False by congruence. rewrite decide_True by done.
  cbn. done_performed.
Qed.

(** C5: the cache entry of a task is set to the snapshot
    [{result: 'Compiling', score: 0, time: 0, memory: 0}] by the task's
    Started report; a Finished report leaves the entry in place and only
    schedules its deletion 5000 ms (the 5 time-units) later, so that, no
    other deletion of it being pending, the entry is still there after any
    shorter time and gone once 5000 ms have passed; a Reported report neither
    changes the cache nor schedules anything, its one call besides the log
    line being [progressPusher.cleanupProgress]; and no event other than a
    timer coming due removes an entry. *)
Theorem progress_cache_lifecycle (c : Session) (sv : Server Detail)
    (payload : list byte) :
  let progress := msgPack_decode env payload in
  let id := report_taskId progress in
  let w' := after env (reportProgress (judge_token env) payload) (c, sv) in
  ProgressReportType_distinct env = true →
  (report_type progress = Started env →
     judgeStateCache w'.2 =
       <[id := {| snap_result := "Compiling"; snap_score := 0;
                  snap_time := 0; snap_memory := 0 |}]> (judgeStateCache sv) ∧
     timers w'.2 = timers sv) ∧
  (report_type progress = Finished env →
     judgeStateCache w'.2 = judgeStateCache sv ∧
     timers w'.2 = (timers sv ++ [((now sv + 5000)%N, id)])%list ∧
     ∀ ms : N,
       (∀ timer, timer ∈ timers sv → timer.2 ≠ id) →
       judgeStateCache (after env (time_passes ms) w').2 !! id =
         if bool_decide (5000 ≤ ms)%N then None else judgeStateCache sv !! id) ∧
  (report_type progress = Reported env →
     judgeStateCache w'.2 = judgeStateCache sv ∧
     timers w'.2 = timers sv ∧
     effects w'.2 =
       (effects sv ++
        [winston_verbose ("Got progress from progress exchange, id: " +:+ id);
         progressPusher_cleanupProgress id])%list) ∧
  (∀ (ev : Event) (id' : string),
     (∀ ms, ev ≠ time_passes ms) →
     is_Some (judgeStateCache sv !! id') →
     is_Some (judgeStateCache (after env ev (c, sv)).2 !! id')).
Proof.
  intros progress id w' Hd. subst w'.
  change (after env (reportProgress (judge_token env) payload) (c, sv))
    with (on_reportProgress env (judge_token env) payload (c, sv)).2.
  split; [|split; [|split]].
  - intros Htype. by rewrite (reportProgress_Started c sv payload Htype).
  - intros Htype. rewrite (reportProgress_Finished c sv payload Hd Htype).
    fold progress id. cbn [snd]. split; [done|]. split; [done|].
    intros ms Hfresh. rewrite time_passes_cache. cbn.
    rewrite existsb_app. cbn.
    assert (existsb (λ timer, is_due (now sv + ms) timer && bool_decide (timer.2 = id))
              (timers sv) = false) as ->.
    { apply not_true_is_false. intros (timer & Hin & Htimer)%existsb_exists.
      apply andb_true_iff in Htimer as [_ Hid%bool_decide_eq_true].
      by apply (Hfresh timer); [apply list_elem_of_In|]. }
    cbn. rewrite orb_false_r, (bool_decide_eq_true_2 (id = id)) by done.
    rewrite andb_true_r. unfold is_due. cbn.
    destruct (decide (5000 ≤ ms)%N).
    + by rewrite !bool_decide_eq_true_2 by lia.
    + by rewrite !bool_decide_eq_false_2 by lia.
  - intros Htype. by rewrite (reportProgress_Reported c sv payload Hd Htype).
  - intros ev id' Hev Hsome.
    destruct (handlers_keep_cache_entries ev c sv Hev) as [->| (i & x & ->)]; [done|].
    rewrite lookup_insert. case_decide; eauto.
Qed.

(** *** judge *)

(** C8: [judge] makes one [push], of a task whose type, param and extraData
    follow [problem.type]: for ['submit-answer'] the param is null and
    extraData holds the bytes read from the answer file, and when that read
    fails [judge] fails with the read error and leaves the state, the queue
    included, as it was; for ['interaction'] and for any other type the
    param is the parameter object and extraData is null. *)
Theorem judge_enqueues_one_task (judge_state : JudgeState Detail)
    (problem : Problem) (priority : Z) (sv : Server Detail) :
  let path := resolvePath env "answer" (js_code judge_state) in
  let task type param extraData :=
    {| content := {| taskId := js_task_id judge_state;
                     testData := pretty (problem_id problem);
                     type := type;
                     content_priority := priority;
                     param := param |};
       extraData := extraData |} in
  let pushed task : (Exn + ()) * Server Detail :=
    (inr (), set_redis_judge (Redis.zadd priority (JSON_stringify env task))
               (performed [redis_ZADD priority (JSON_stringify env task)] sv)) in
  (problem_type problem = "submit-answer" →
     match readFileAsync env path with
     | Some bytes =>
         judge env judge_state problem priority sv =
           pushed (task (AnswerSubmission env) None (Some bytes))
     | None =>
         judge env judge_state problem priority sv = (inl (ReadFileError path), sv)
     end) ∧
  (problem_type problem = "interaction" →
     judge env judge_state problem priority sv =
       pushed (task (Interaction env)
                 (Some (InteractionParam (js_language judge_state)
                          (js_code judge_state)
                          (time_limit problem) (memory_limit problem)))
                 None)) ∧
  (problem_type problem ≠ "submit-answer" →
   problem_type problem ≠ "interaction" →
     judge env judge_state problem priority sv =
       pushed (task (Standard env)
                 (Some (StandardParam (js_language judge_state)
                          (js_code judge_state)
                          (time_limit problem) (memory_limit problem)
                          (if file_io problem then file_io_input_name problem
                           else None)
                          (if file_io problem then file_io_output_name problem
                           else None)))
                 None)).
Proof.
  intros path task pushed. subst pushed task path. cbn beta.
  split; [|split].
  - intros H. exec. rewrite decide_True by done.
    destruct (readFileAsync env _); cbn; [done_performed|done].
  - intros H. exec. rewrite decide_False by (by rewrite H).
    rewrite decide_True by done. cbn. done_performed.
  - intros H1 H2. exec. rewrite !decide_False by done. cbn. done_performed.
Qed.

(** *** The closure of a connection *)

Lemma waitForTask_already_waiting (c : Session) (sv : Server Detail) :
  waitingForTask c = true →
  on_waitForTask env (judge_token env) (c, sv) =
    (inr (), (c, performed
       [ack;
        winston_verbose ("Judge client " +:+ socket_id c +:+
                         " emitted waitForTask, but already waiting, ignoring.")]
       sv)).
Proof.
  intros Hw. exec. rewrite decide_False by (intros H; by apply H).
  cbn. rewrite Hw. cbn. done_performed.
Qed.

Lemma waitForTask_starts_poll (c : Session) (sv : Server Detail) :
  waitingForTask c = false →
  socket_connected c = true →
  on_waitForTask env (judge_token env) (c, sv) =
    (inr (), (set_polling S (set_waitingForTask true c), performed
       [ack;
        winston_verbose ("Judge client " +:+ socket_id c +:+ " emitted waitForTask.");
        redis_BZPOPMAX 10]
       sv)).
Proof.
  intros Hw Hc. exec. rewrite decide_False by (intros H; by apply H).
  cbn. rewrite Hw. cbn. rewrite Hc. cbn. done_performed.
Qed.

(** The closure after a poll resolves, case by case. *)
Lemma poll_resolved_session (c : Session) (sv : Server Detail) :
  (after env poll_resolved (c, sv)).1 =
    match polling c with
    | O => c
    | S _ =>
        match Redis.bzpopmax (redis_judge sv) with
        | (None, _) =>
            if socket_connected c then set_polling S (set_polling pred c)
            else set_polling pred c
        | (Some (member, score), _) =>
            match JSON_parse env member with
            | None => set_polling pred c
            | Some d =>
                if socket_connected c
                then set_pendingAckTaskObj
                       (Some {| data := d; priority := score |}) (set_polling pred c)
                else set_polling pred c
            end
        end
    end.
Proof.
  destruct c as [id conn pend wait [|n]]; exec; [done|].
  destruct (Redis.bzpopmax (redis_judge sv)) as [[[member score]|] z']; cbn.
  - destruct (JSON_parse env member); cbn; [|done]. by destruct conn.
  - by destruct conn.
Qed.

Lemma waitForTask_session (token : string) (c : Session) (sv : Server Detail) :
  (after env (waitForTask token) (c, sv)).1 =
    if decide (token ≠ judge_token env) then c
    else if waitingForTask c then c
    else if socket_connected c then set_polling S (set_waitingForTask true c)
    else set_waitingForTask true c.
Proof.
  destruct c as [id conn pend wait pol]; exec. case_decide; [done|]. cbn.
  destruct wait; [done|]. cbn. by destruct conn.
Qed.

Lemma disconnect_session (reason : string) (c : Session) (sv : Server Detail) :
  (after env (disconnect reason) (c, sv)).1 =
    set_pendingAckTaskObj None (set_socket_connected false c).
Proof.
  exec. destruct c as [id conn [obj|] wait pol]; done.
Qed.

Lemma onTask_acked_session (task : Task) (c : Session) (sv : Server Detail) :
  (after env (onTask_acked task) (c, sv)).1 =
    set_waitingForTask false (set_pendingAckTaskObj None c).
Proof. by exec. Qed.

Lemma reportProgress_session token payload (c : Session) (sv : Server Detail) :
  (after env (reportProgress token payload) (c, sv)).1 = c.
Proof. exec. repeat (case_decide; try done). Qed.

Lemma reportResult_session token payload (c : Session) (sv : Server Detail) :
  (after env (reportResult token payload) (c, sv)).1 = c.
Proof.
  exec. case_decide; [done|]. cbn.
  destruct (judge_state_table sv !! _); repeat (case_decide; try done).
Qed.

Lemma time_passes_session ms (c : Session) (sv : Server Detail) :
  (after env (time_passes ms) (c, sv)).1 = c.
Proof. by exec. Qed.

(** Every event keeps [session_inv], provided an acknowledgement comes only
    for the task that is pending. *)
Lemma session_inv_step_ack (ev : Event) (c : Session) (sv : Server Detail) :
  session_inv c = true →
  (is_ack ev = true → enabled ev c = true) →
  session_inv (after env ev (c, sv)).1 = true.
Proof.
  intros Hinv Hen. destruct ev.
  - rewrite waitForTask_session. case_decide; [done|].
    by destruct c as [id conn [obj|] [|] [|[|n]]], conn.
  - rewrite poll_resolved_session.
    destruct c as [id conn [obj|] wait [|[|n]]]; try done.
    unfold session_inv in Hinv; cbn in Hinv; subst.
    destruct (Redis.bzpopmax (redis_judge sv)) as [[[member score]|] z'].
    + destruct (JSON_parse env member); [|done]. by destruct conn.
    + by destruct conn.
  - rewrite onTask_acked_session.
    specialize (Hen eq_refl).
    apply andb_true_iff in Hen as [_ Hp%bool_decide_eq_true].
    by destruct c as [id conn [obj|] wait [|[|n]]].
  - rewrite disconnect_session.
    by destruct c as [id conn [obj|] [|] [|[|n]]].
  - by rewrite reportProgress_session.
  - by rewrite reportResult_session.
  - by rewrite time_passes_session.
Qed.

Lemma session_inv_step (ev : Event) (c : Session) (sv : Server Detail) :
  session_inv c = true →
  enabled ev c = true →
  session_inv (after env ev (c, sv)).1 = true.
Proof. intros Hinv Hen. by apply session_inv_step_ack. Qed.

Lemma session_inv_run (evs : list Event) (w : World) :
  session_inv w.1 = true →
  run_enabled env evs w = true →
  session_inv (run env evs w).1 = true.
Proof.
  revert w. induction evs as [|ev evs IH]; intros [c sv] Hinv Hen; [done|].
  cbn in Hen. apply andb_true_iff in Hen as [Hev Hen].
  cbn. apply IH; [|done]. by apply session_inv_step.
Qed.

Lemma session_inv_polling (c : Session) :
  session_inv c = true →
  (polling c ≤ 1)%nat ∧ (waitingForTask c = false → polling c = 0%nat).
Proof.
  destruct c as [id conn [obj|] [|] [|[|n]]]; cbn; try done; intros _; split;
    try done; lia.
Qed.

(** C4 (as the code has it): a [waitForTask] with the right token is
    acknowledged at once in either case, the [ack] being the handler's first
    call.  Arriving while [waitingForTask] is set it is then ignored: one
    verbose line, the closure and the shared state unchanged, no poll
    started.  Arriving while it is not set, on a connected socket, it sets
    [waitingForTask] and suspends one more invocation at the poll.  On every
    connection, whatever events the transport delivers, at most one
    invocation is suspended at the poll and none while [waitingForTask] is
    unset, so a request that is not ignored leaves exactly one. *)
Theorem waitForTask_acked_then_idempotent (c : Session) (sv : Server Detail) :
  (waitingForTask c = true →
     on_waitForTask env (judge_token env) (c, sv) =
       (inr (), (c, performed
          [ack;
           winston_verbose ("Judge client " +:+ socket_id c +:+
                            " emitted waitForTask, but already waiting, ignoring.")]
          sv))) ∧
  (waitingForTask c = false →
   socket_connected c = true →
     on_waitForTask env (judge_token env) (c, sv) =
       (inr (), (set_polling S (set_waitingForTask true c), performed
          [ack;
           winston_verbose ("Judge client " +:+ socket_id c +:+
                            " emitted waitForTask.");
           redis_BZPOPMAX 10]
          sv))) ∧
  (∀ (id : string) (evs : list Event) (sv0 : Server Detail),
     run_enabled env evs (connect id, sv0) = true →
     let w := run env evs (connect id, sv0) in
     (polling w.1 ≤ 1)%nat ∧
     (waitingForTask w.1 = false → polling w.1 = 0%nat) ∧
     (waitingForTask w.1 = false →
      socket_connected w.1 = true →
      let c' := (after env (waitForTask (judge_token env)) w).1 in
      waitingForTask c' = true ∧ polling c' = 1%nat)).
Proof.
  split; [apply waitForTask_already_waiting|].
  split; [apply waitForTask_starts_poll|].
  intros id evs sv0 Hen w.
  assert (session_inv w.1 = true) as Hinv by (by apply session_inv_run).
  destruct (session_inv_polling _ Hinv) as [Hle Hzero].
  split; [done|]. split; [done|].
  intros Hw Hc. destruct w as [c' sv'] eqn:Hweq. cbn in *.
  unfold after, handle. rewrite waitForTask_starts_poll by done.
  cbn. split; [done|]. by rewrite Hzero.
Qed.

(** What the disconnect handler does, by the value of [pendingAckTaskObj]. *)
Lemma disconnect_run (reason : string) (c : Session) (sv : Server Detail) :
  on_disconnect env reason (c, sv) =
    (inr (),
     match pendingAckTaskObj c with
     | Some obj =>
         (set_pendingAckTaskObj None (set_socket_connected false c),
          set_redis_judge
            (Redis.zadd (priority obj) (JSON_stringify env (data obj)))
            (performed
               [winston_info ("Judge client " +:+ socket_id c +:+
                              " disconnected, reason = " +:+
                              util_inspect env reason +:+ ".");
                winston_warn ("Re-pushing task " +:+
                              taskId (content (data obj)) +:+ " to judge queue.");
                redis_ZADD (priority obj) (JSON_stringify env (data obj))] sv))
     | None =>
         (set_socket_connected false c,
          performed
            [winston_info ("Judge client " +:+ socket_id c +:+
                           " disconnected, reason = " +:+
                           util_inspect env reason +:+ ".")] sv)
     end).
Proof.
  destruct c as [id conn [obj|] wait pol]; exec; [done_performed|done].
Qed.

(** Once disconnected with nothing pending, a closure stays so. *)
Lemma disconnected_stays (ev : Event) (c : Session) (sv : Server Detail) :
  socket_connected c = false →
  pendingAckTaskObj c = None →
  socket_connected (after env ev (c, sv)).1 = false ∧
  pendingAckTaskObj (after env ev (c, sv)).1 = None.
Proof.
  intros Hc Hp. destruct ev.
  - rewrite waitForTask_session. case_decide; [done|].
    destruct c as [id conn pend wait pol]; cbn in *; subst. by destruct wait.
  - rewrite poll_resolved_session.
    destruct c as [id conn pend wait [|n]]; cbn in *; subst; [done|].
    destruct (Redis.bzpopmax (redis_judge sv)) as [[[member score]|] z']; [|done].
    by destruct (JSON_parse env member).
  - rewrite onTask_acked_session. by destruct c.
  - rewrite disconnect_session. by destruct c.
  - by rewrite reportProgress_session.
  - by rewrite reportResult_session.
  - by rewrite time_passes_session.
Qed.

Lemma disconnected_stays_run (evs : list Event) (w : World) :
  socket_connected w.1 = false →
  pendingAckTaskObj w.1 = None →
  socket_connected (run env evs w).1 = false ∧
  pendingAckTaskObj (run env evs w).1 = None.
Proof.
  revert w. induction evs as [|ev evs IH]; intros [c sv] Hc Hp; [done|].
  cbn. cbn in Hc, Hp.
  destruct (disconnected_stays ev c sv Hc Hp) as [Hc' Hp'].
  by apply IH.
Qed.

(** C9: the disconnect handler pushes exactly when [pendingAckTaskObj] is
    set, once, and leaves it null; whatever events follow on that
    connection, it stays null, and a later run of the disconnect handler
    only writes its log line: it makes no [ZADD] and leaves the queue and
    every other part of the state as they are. *)
Theorem requeue_discharged_at_most_once (c : Session) (sv : Server Detail)
    (reason : string) :
  let w1 := after env (disconnect reason) (c, sv) in
  on_disconnect env reason (c, sv) =
    (inr (),
     match pendingAckTaskObj c with
     | Some obj =>
         (set_pendingAckTaskObj None (set_socket_connected false c),
          set_redis_judge
            (Redis.zadd (priority obj) (JSON_stringify env (data obj)))
            (performed
               [winston_info ("Judge client " +:+ socket_id c +:+
                              " disconnected, reason = " +:+
                              util_inspect env reason +:+ ".");
                winston_warn ("Re-pushing task " +:+
                              taskId (content (data obj)) +:+ " to judge queue.");
                redis_ZADD (priority obj) (JSON_stringify env (data obj))] sv))
     | None =>
         (set_socket_connected false c,
          performed
            [winston_info ("Judge client " +:+ socket_id c +:+
                           " disconnected, reason = " +:+
                           util_inspect env reason +:+ ".")] sv)
     end) ∧
  pendingAckTaskObj w1.1 = None ∧
  ∀ (evs : list Event) (reason' : string),
    let w2 := run env evs w1 in
    pendingAckTaskObj w2.1 = None ∧
    on_disconnect env reason' w2 =
      (inr (), (w2.1, performed
         [winston_info ("Judge client " +:+ socket_id w2.1 +:+
                        " disconnected, reason = " +:+
                        util_inspect env reason' +:+ ".")] w2.2)).
Proof.
  intros w1. split; [apply disconnect_run|].
  assert (socket_connected w1.1 = false ∧ pendingAckTaskObj w1.1 = None)
    as [Hc Hp].
  { subst w1. rewrite disconnect_session. by destruct c. }
  split; [done|]. intros evs reason' w2.
  destruct (disconnected_stays_run evs w1 Hc Hp) as [Hc2 Hp2].
  fold w2 in Hc2, Hp2. split; [done|].
  destruct w2 as [c2 sv2]. cbn in *.
  rewrite disconnect_run, Hp2. do 2 f_equal.
  destruct c2; cbn in *; by subst.
Qed.

(** *** Requeue *)

Lemma queue_wf_lookup (z : gmap string Z) (member : string) (score : Z) :
  queue_wf env z = true →
  z !! member = Some score →
  ∃ d, JSON_parse env member = Some d ∧ JSON_stringify env d = member.
Proof.
  unfold queue_wf. intros Hwf%bool_decide_eq_true Hm.
  specialize (Hwf member score Hm). cbn in Hwf. unfold roundtrips in Hwf.
  destruct (JSON_parse env member) as [d|]; [|done].
  apply bool_decide_eq_true in Hwf. eauto.
Qed.

(** The immediate requeue: a poll that resolves with an entry after the
    socket disconnected pushes the entry's data with the entry's priority. *)
Lemma poll_resolved_disconnected (c : Session) (sv : Server Detail)
    (member : string) (score : Z) (z' : gmap string Z) (d : Task) :
  polling c ≠ 0%nat →
  socket_connected c = false →
  Redis.bzpopmax (redis_judge sv) = (Some (member, score), z') →
  JSON_parse env member = Some d →
  on_poll_resolved env (c, sv) =
    (inr (),
     (set_polling pred c,
      set_redis_judge (λ _, Redis.zadd score (JSON_stringify env d) z')
        (performed
           [winston_verbose ("Judge client " +:+ socket_id c +:+
                             " got task but disconnected re-pushing task to queue.");
            redis_ZADD score (JSON_stringify env d)] sv))).
Proof.
  intros Hpol Hc Hpop Hparse.
  destruct c as [id conn pend wait [|n]]; [done|]. cbn in Hc. subst conn.
  exec. rewrite Hpop. cbn. rewrite Hparse. cbn. done_performed.
Qed.

(** The queue after a poll resolves, case by case. *)
Lemma poll_resolved_queue (c : Session) (sv : Server Detail) :
  redis_judge (after env poll_resolved (c, sv)).2 =
    match polling c with
    | O => redis_judge sv
    | S _ =>
        match Redis.bzpopmax (redis_judge sv) with
        | (None, _) => redis_judge sv
        | (Some (member, score), z') =>
            match JSON_parse env member with
            | None => z'
            | Some d =>
                if socket_connected c then z'
                else Redis.zadd score (JSON_stringify env d) z'
            end
        end
    end.
Proof.
  destruct c as [id conn pend wait [|n]]; exec; [done|].
  destruct (Redis.bzpopmax (redis_judge sv)) as [[[member score]|] z']; cbn.
  - destruct (JSON_parse env member); cbn; [|done]. by destruct conn.
  - by destruct conn.
Qed.

(** The handlers that never touch the queue. *)
Lemma waitForTask_queue token (c : Session) (sv : Server Detail) :
  redis_judge (after env (waitForTask token) (c, sv)).2 = redis_judge sv.
Proof.
  destruct c as [id conn pend wait pol]; exec. case_decide; [done|]. cbn.
  destruct wait; [done|]. cbn. by destruct conn.
Qed.

Lemma onTask_acked_queue task (c : Session) (sv : Server Detail) :
  redis_judge (after env (onTask_acked task) (c, sv)).2 = redis_judge sv.
Proof. by exec. Qed.

Lemma reportProgress_queue token payload (c : Session) (sv : Server Detail) :
  redis_judge (after env (reportProgress token payload) (c, sv)).2 = redis_judge sv.
Proof. exec. repeat (case_decide; try done). Qed.

Lemma reportResult_queue token payload (c : Session) (sv : Server Detail) :
  redis_judge (after env (reportResult token payload) (c, sv)).2 = redis_judge sv.
Proof.
  exec. case_decide; [done|]. cbn.
  destruct (judge_state_table sv !! _); repeat (case_decide; try done).
Qed.

Lemma time_passes_queue ms (c : Session) (sv : Server Detail) :
  redis_judge (after env (time_passes ms) (c, sv)).2 = redis_judge sv.
Proof. by exec. Qed.

(** Apart from an acknowledgement, which takes the delivered entry out of
    the connection's hands, no event changes what the connection answers
    for: a polled entry goes from the queue into [pendingAckTaskObj] or
    straight back, and a disconnect puts the pending entry back. *)
Lemma custody_step (ev : Event) (c : Session) (sv : Server Detail) :
  session_inv c = true →
  queue_wf env (custody env (c, sv)) = true →
  is_ack ev = false →
  custody env (after env ev (c, sv)) = custody env (c, sv).
Proof.
  intros Hinv Hwf Hack. unfold custody.
  destruct (after env ev (c, sv)) as [c' sv'] eqn:Hafter.
  assert (c' = (after env ev (c, sv)).1) as Hc' by by rewrite Hafter.
  assert (sv' = (after env ev (c, sv)).2) as Hsv' by by rewrite Hafter.
  cbn [fst snd]. clear Hafter. destruct ev; try done.
  - rewrite waitForTask_session in Hc'. rewrite Hsv', waitForTask_queue.
    subst c'. case_decide; [done|].
    by destruct c as [id conn pend [|] pol], conn.
  - rewrite poll_resolved_session in Hc'. rewrite Hsv', poll_resolved_queue.
    subst c'. clear Hsv'.
    destruct c as [id conn [obj|] wait [|[|n]]]; try done. cbn.
    destruct (Redis.bzpopmax (redis_judge sv)) as [[[member score]|] z'] eqn:Hpop;
      [|by destruct conn].
    destruct (RedisFacts.bzpopmax_Some _ _ _ _ Hpop) as [Hm _].
    destruct (queue_wf_lookup _ _ _ Hwf Hm) as (d & -> & Hd).
    destruct conn; cbn; rewrite Hd; by apply RedisFacts.zadd_bzpopmax.
  - rewrite disconnect_session in Hc'. subst c' sv'.
    unfold after, handle. rewrite disconnect_run.
    by destruct c as [id conn [obj|] wait pol].
  - rewrite reportProgress_session in Hc'. rewrite Hsv', reportProgress_queue.
    by subst c'.
  - rewrite reportResult_session in Hc'. rewrite Hsv', reportResult_queue.
    by subst c'.
  - rewrite time_passes_session in Hc'. rewrite Hsv', time_passes_queue.
    by subst c'.
Qed.

Lemma custody_run (evs : list Event) (w : World) :
  session_inv w.1 = true →
  queue_wf env (custody env w) = true →
  forallb (λ ev, negb (is_ack ev)) evs = true →
  custody env (run env evs w) = custody env w ∧
  session_inv (run env evs w).1 = true.
Proof.
  revert w. induction evs as [|ev evs IH]; intros [c sv] Hinv Hwf Hevs; [done|].
  cbn in Hevs. apply andb_true_iff in Hevs as [Hev%negb_true_iff Hevs].
  cbn [run foldl]. fold (run env evs (after env ev (c, sv))).
  pose proof (custody_step ev c sv Hinv Hwf Hev) as Hstep.
  destruct (IH (after env ev (c, sv))) as [Hrun Hinv']; [| |done|].
  - apply session_inv_step_ack; [done|]. by rewrite Hev.
  - by rewrite Hstep.
  - by rewrite Hrun, Hstep.
Qed.

(** A dispatch attempt that ends in a disconnect before the acknowledgement
    leaves the queue as it found it. *)
Lemma attempt_queue (id : string) (evs : list Event) (sv : Server Detail) :
  pre_ack_disconnect evs = true →
  queue_wf env (redis_judge sv) = true →
  redis_judge (attempt env id evs sv) = redis_judge sv.
Proof.
  intros [Hnoack Hdis]%andb_true_iff Hwf.
  destruct (custody_run evs (connect id, sv)) as [Hcust _]; [done..|].
  unfold attempt. unfold custody at 2 in Hcust. cbn in Hcust.
  rewrite <- Hcust. unfold custody.
  assert (pendingAckTaskObj (run env evs (connect id, sv)).1 = None) as ->; [|done].
  apply existsb_exists in Hdis as (ev & Hin & Hev).
  destruct ev as [| | |reason| | |]; try done.
  apply list_elem_of_In, list_elem_of_split in Hin as (evs1 & evs2 & ->).
  unfold run. rewrite foldl_app. cbn [foldl].
  destruct (foldl (λ w ev, after env ev w) (connect id, sv) evs1) as [c1 sv1].
  apply disconnected_stays_run; rewrite disconnect_session; by destruct c1.
Qed.

Lemma attempts_queue (l : list (string * list Event)) (sv : Server Detail) :
  forallb (λ a, pre_ack_disconnect a.2) l = true →
  queue_wf env (redis_judge sv) = true →
  redis_judge (attempts env l sv) = redis_judge sv.
Proof.
  revert sv. induction l as [|[id evs] l IH]; intros sv Hl Hwf; [done|].
  cbn in Hl. apply andb_true_iff in Hl as [Ha Hl].
  cbn. fold (attempts env l (attempt env id evs sv)).
  pose proof (attempt_queue id evs sv Ha Hwf) as Hq.
  rewrite IH; [done|done|]. by rewrite Hq.
Qed.

(** A pushed entry that sorts highest is what the next poll returns. *)
Lemma poll_returns_top (obj : Entry) (sv : Server Detail) :
  Redis.zmax (redis_judge sv) = Some (JSON_stringify env (data obj), priority obj) →
  JSON_parse env (JSON_stringify env (data obj)) = Some (data obj) →
  (judgeQueue_poll env 10 sv).1 = inr (Some obj).
Proof.
  intros Hmax Hparse. exec. unfold Redis.bzpopmax. rewrite Hmax. cbn.
  rewrite Hparse. cbn. by destruct obj.
Qed.

(** C1: both requeue paths push the polled entry's data under the polled
    entry's priority.  (1) A poll that resolves with an entry after the
    socket disconnected pushes it back at once, without setting
    [pendingAckTaskObj] or emitting it; when the entry's data prints as the
    member that was popped, the queue is again what it was before the poll.
    (2) A disconnect while [pendingAckTaskObj] is set pushes the pending
    entry and clears the variable.  (3) After such a push the member is in
    the queue with that priority, and a poll that finds it highest returns
    the same data and priority.  (4) On a connection, no sequence of events
    without an acknowledgement changes the queue taken together with the
    pending entry.  (5) So after any number of dispatch attempts, each on a
    new connection and each ending in a disconnect before the
    acknowledgement, the queue is what it was before the first. *)
Theorem requeue_keeps_entry :
  (∀ (c : Session) (sv : Server Detail) member score z' d,
     polling c ≠ 0%nat →
     socket_connected c = false →
     Redis.bzpopmax (redis_judge sv) = (Some (member, score), z') →
     JSON_parse env member = Some d →
     on_poll_resolved env (c, sv) =
       (inr (),
        (set_polling pred c,
         set_redis_judge (λ _, Redis.zadd score (JSON_stringify env d) z')
           (performed
              [winston_verbose ("Judge client " +:+ socket_id c +:+
                 " got task but disconnected re-pushing task to queue.");
               redis_ZADD score (JSON_stringify env d)] sv))) ∧
     (JSON_stringify env d = member →
      Redis.zadd score (JSON_stringify env d) z' = redis_judge sv)) ∧
  (∀ (c : Session) (sv : Server Detail) obj reason,
     pendingAckTaskObj c = Some obj →
     on_disconnect env reason (c, sv) =
       (inr (),
        (set_pendingAckTaskObj None (set_socket_connected false c),
         set_redis_judge
           (Redis.zadd (priority obj) (JSON_stringify env (data obj)))
           (performed
              [winston_info ("Judge client " +:+ socket_id c +:+
                             " disconnected, reason = " +:+
                             util_inspect env reason +:+ ".");
               winston_warn ("Re-pushing task " +:+
                             taskId (content (data obj)) +:+ " to judge queue.");
               redis_ZADD (priority obj) (JSON_stringify env (data obj))] sv)))) ∧
  (∀ (obj : Entry) (sv : Server Detail),
     JSON_parse env (JSON_stringify env (data obj)) = Some (data obj) →
     let pushed := (judgeQueue_push env (data obj) (priority obj) sv).2 in
     redis_judge pushed !! JSON_stringify env (data obj) = Some (priority obj) ∧
     (Redis.zmax (redis_judge pushed) =
        Some (JSON_stringify env (data obj), priority obj) →
      (judgeQueue_poll env 10 pushed).1 = inr (Some obj))) ∧
  (∀ (c : Session) (sv : Server Detail) (evs : list Event),
     session_inv c = true →
     queue_wf env (custody env (c, sv)) = true →
     forallb (λ ev, negb (is_ack ev)) evs = true →
     custody env (run env evs (c, sv)) = custody env (c, sv)) ∧
  (∀ (l : list (string * list Event)) (sv : Server Detail),
     forallb (λ a, pre_ack_disconnect a.2) l = true →
     queue_wf env (redis_judge sv) = true →
     redis_judge (attempts env l sv) = redis_judge sv).
Proof.
  split; [|split; [|split; [|split]]].
  - intros c sv member score z' d Hpol Hc Hpop Hparse.
    split; [by apply (poll_resolved_disconnected c sv member)|].
    intros ->. by apply RedisFacts.zadd_bzpopmax.
  - intros c sv obj reason Hp. by rewrite disconnect_run, Hp.
  - intros obj sv Hparse pushed. split.
    + subst pushed. exec. unfold Redis.zadd. by rewrite lookup_insert_eq.
    + intros Hmax. by apply poll_returns_top.
  - intros c sv evs Hinv Hwf Hevs. by apply (custody_run evs (c, sv)).
  - apply attempts_queue.
Qed.

End JudgerFacts.

Section JudgerMore.
Context {Detail : Type} (env : Imports Detail).

Local Abbreviation World := (Session * Server Detail)%type.

(** ** The queue as its users see it *)

Lemma zle_score (a b : string * Z) : Redis.zle a b = true → (a.2 ≤ b.2)%Z.
Proof.
  unfold Redis.zle. case_decide as Heq; [lia|].
  intros H%bool_decide_eq_true. lia.
Qed.

Lemma zmax_empty : Redis.zmax (∅ : gmap string Z) = None.
Proof. unfold Redis.zmax. by rewrite map_fold_empty. Qed.

(** A member added above every other score is the greatest. *)
Lemma zmax_zadd_top (z : gmap string Z) (member : string) (score : Z) :
  (∀ m s, z !! m = Some s → m ≠ member → (s < score)%Z) →
  Redis.zmax (Redis.zadd score member z) = Some (member, score).
Proof.
  intros Hlow. pose proof (RedisFacts.zmax_spec (Redis.zadd score member z)) as H.
  unfold Redis.zadd in *.
  destruct (Redis.zmax (<[member:=score]> z)) as [[m s]|].
  - destruct H as [Hm Hmax].
    destruct (decide (m = member)) as [->|Hne].
    + rewrite lookup_insert_eq in Hm. by simplify_eq.
    + rewrite lookup_insert_ne in Hm by done.
      pose proof (Hlow m s Hm Hne) as Hlt.
      pose proof (Hmax member score (lookup_insert_eq _ _ _)) as Hle.
      apply zle_score in Hle. cbn in Hle. lia.
  - by apply insert_non_empty in H.
Qed.

(** X1: [poll] resolves to null exactly when the sorted set is empty, and
    then changes nothing beyond sending its command.  Otherwise it removes
    one member, and only that one: when the member parses, the entry it
    returns carries the parsed data and the member's score, and no entry of
    the queue has a higher score; when the member does not parse, [poll]
    throws the parse error and the member is gone all the same. *)
Theorem poll_takes_a_highest_entry (sv : Server Detail) (timeout : Z) :
  match judgeQueue_poll env timeout sv with
  | (inr None, sv') =>
      redis_judge sv = ∅ ∧ sv' = performed [redis_BZPOPMAX timeout] sv
  | (inr (Some obj), sv') =>
      ∃ member,
        redis_judge sv !! member = Some (priority obj) ∧
        JSON_parse env member = Some (data obj) ∧
        (∀ m s, redis_judge sv !! m = Some s → (s ≤ priority obj)%Z) ∧
        redis_judge sv' = delete member (redis_judge sv)
  | (inl e, sv') =>
      ∃ member score,
        e = SyntaxError member ∧
        redis_judge sv !! member = Some score ∧
        JSON_parse env member = None ∧
        redis_judge sv' = delete member (redis_judge sv)
  end.
Proof.
  exec. pose proof (RedisFacts.zmax_spec (redis_judge sv)) as H.
  unfold Redis.bzpopmax.
  destruct (Redis.zmax (redis_judge sv)) as [[member score]|]; cbn.
  - destruct H as [Hm Hmax].
    destruct (JSON_parse env member) as [d|] eqn:Hparse; cbn.
    + exists member. repeat split; try done.
      intros m s Hms. by apply (zle_score (m, s) (member, score)), Hmax.
    + by exists member, score.
  - done.
Qed.

(** X2: a value pushed with a priority above every other entry of the queue
    is what the next [poll] resolves to, as [JSON.parse] reads its member
    back and under the priority it was pushed with; the queue is then what
    it was before the push, without that member. *)
Theorem pushed_highest_is_polled_next (d d' : Task) (p : Z) (sv : Server Detail)
    (timeout : Z) :
  JSON_parse env (JSON_stringify env d) = Some d' →
  (∀ m s, redis_judge sv !! m = Some s → m ≠ JSON_stringify env d → (s < p)%Z) →
  let pushed := (judgeQueue_push env d p sv).2 in
  (judgeQueue_poll env timeout pushed).1 = inr (Some {| data := d'; priority := p |}) ∧
  redis_judge (judgeQueue_poll env timeout pushed).2 =
    delete (JSON_stringify env d) (redis_judge sv).
Proof.
  intros Hparse Hlow pushed. subst pushed. exec.
  unfold Redis.bzpopmax. rewrite (zmax_zadd_top _ _ _ Hlow). cbn.
  rewrite Hparse. cbn. split; [done|].
  unfold Redis.zadd. by rewrite delete_insert_eq.
Qed.

(** The member behind an entry that a poll returned. *)
Lemma poll_Some_inv (sv sv' : Server Detail) (timeout : Z) (obj : Entry) :
  judgeQueue_poll env timeout sv = (inr (Some obj), sv') →
  ∃ member,
    redis_judge sv !! member = Some (priority obj) ∧
    JSON_parse env member = Some (data obj) ∧
    redis_judge sv' = delete member (redis_judge sv).
Proof.
  exec. destruct (Redis.bzpopmax (redis_judge sv)) as [[[member score]|] z'] eqn:Hpop;
    cbn; [|done].
  apply RedisFacts.bzpopmax_Some in Hpop as [Hm ->].
  destruct (JSON_parse env member) as [d|] eqn:Hparse; cbn; [|done].
  intros [= <- <-]. by exists member.
Qed.

(** X3: two polls in a row never hand out the same entry: on a queue whose
    members print back as they parse, the data of the second entry differs
    from the data of the first. *)
Theorem polls_never_repeat (sv sv1 sv2 : Server Detail) (t1 t2 : Z)
    (obj1 obj2 : Entry) :
  queue_wf env (redis_judge sv) = true →
  judgeQueue_poll env t1 sv = (inr (Some obj1), sv1) →
  judgeQueue_poll env t2 sv1 = (inr (Some obj2), sv2) →
  data obj1 ≠ data obj2.
Proof.
  intros Hwf H1 H2.
  destruct (poll_Some_inv _ _ _ _ H1) as (m1 & Hm1 & Hp1 & Hq1).
  destruct (poll_Some_inv _ _ _ _ H2) as (m2 & Hm2 & Hp2 & _).
  rewrite Hq1 in Hm2.
  assert (m2 ≠ m1) as Hne.
  { intros ->. by rewrite lookup_delete_eq in Hm2. }
  rewrite lookup_delete_ne in Hm2 by done.
  destruct (queue_wf_lookup env _ _ _ Hwf Hm1) as (d1 & Hd1 & Hs1).
  destruct (queue_wf_lookup env _ _ _ Hwf Hm2) as (d2 & Hd2 & Hs2).
  intros Heq. apply Hne. simplify_eq. congruence.
Qed.

(** ** The poll loop *)

(** X4: a poll that times out on an empty queue takes nothing and changes
    neither the queue nor the closure's variables.  While the socket is
    connected the loop polls again, still with one invocation suspended;
    once it is disconnected the handler writes its "stop poll" line and
    ends, and no invocation is left suspended on its account. *)
Theorem poll_timeout_keeps_state (c : Session) (sv : Server Detail) :
  polling c ≠ 0%nat →
  redis_judge sv = ∅ →
  on_poll_resolved env (c, sv) =
    (inr (),
     if socket_connected c
     then (c, performed [redis_BZPOPMAX 10] sv)
     else (set_polling pred c,
           performed
             [winston_verbose ("Judge client " +:+ socket_id c +:+
                               " disconnected, stop poll the queue.")] sv)).
Proof.
  intros Hpol Hempty.
  destruct c as [id conn pend wait [|n]]; [done|]. exec.
  unfold Redis.bzpopmax. rewrite Hempty, zmax_empty. cbn.
  by destruct conn.
Qed.

(** X5: when the member that a poll takes is not valid JSON, the
    [waitForTask] handler ends with the parse error: the member has left
    the queue and is neither pushed back nor sent, nothing is pending, and
    [waitingForTask] keeps the value it had.  As that value is true for a
    handler that reached the loop, every later [waitForTask] on the
    connection is acknowledged and ignored, and the connection polls no
    more. *)
Theorem unparsable_member_is_lost (c : Session) (sv : Server Detail)
    (member : string) (score : Z) (z' : gmap string Z) :
  polling c ≠ 0%nat →
  Redis.bzpopmax (redis_judge sv) = (Some (member, score), z') →
  JSON_parse env member = None →
  on_poll_resolved env (c, sv) =
    (inl (SyntaxError member),
     (set_polling pred c, set_redis_judge (λ _, z') sv)) ∧
  z' !! member = None ∧
  (waitingForTask c = true →
   on_waitForTask env (judge_token env) (after env poll_resolved (c, sv)) =
     (inr (),
      (set_polling pred c,
       performed
         [ack;
          winston_verbose ("Judge client " +:+ socket_id c +:+
                           " emitted waitForTask, but already waiting, ignoring.")]
         (set_redis_judge (λ _, z') sv)))).
Proof.
  intros Hpol Hpop Hparse.
  assert (on_poll_resolved env (c, sv) =
    (inl (SyntaxError member),
     (set_polling pred c, set_redis_judge (λ _, z') sv))) as Hrun.
  { destruct c as [id conn pend wait [|n]]; [done|]. exec.
    rewrite Hpop. cbn. by rewrite Hparse. }
  split; [exact Hrun|]. split.
  - apply RedisFacts.bzpopmax_Some in Hpop as [_ ->]. apply lookup_delete_eq.
  - intros Hw. unfold after, handle. rewrite Hrun. cbn [snd].
    by rewrite waitForTask_already_waiting.
Qed.

(** X6: one delivery, start to end.  On a new connection, a [waitForTask]
    with the right token, the reply to its poll and the worker's
    acknowledgement of the task are events the transport can deliver in
    that order; they leave the closure as it was created, ready for the
    next [waitForTask], the polled member out of the queue, and exactly
    these calls: the ack of the request, the poll, the [onTask] emit of the
    encoded task, and the log lines between them. *)
Theorem delivery_cycle (id : string) (sv : Server Detail)
    (member : string) (score : Z) (z' : gmap string Z) (d : Task) :
  Redis.bzpopmax (redis_judge sv) = (Some (member, score), z') →
  JSON_parse env member = Some d →
  let evs := [waitForTask (judge_token env); poll_resolved; onTask_acked d] in
  run_enabled env evs (connect id, sv) = true ∧
  run env evs (connect id, sv) =
    (connect id,
     set_redis_judge (λ _, z')
       (performed
          [ack;
           winston_verbose ("Judge client " +:+ id +:+ " emitted waitForTask.");
           redis_BZPOPMAX 10;
           winston_verbose ("Sending task " +:+ taskId (content d) +:+
                            " to judge client " +:+ id +:+ ".");
           socket_emit_onTask (msgPack_encode env d);
           winston_verbose ("Judge client " +:+ id +:+ " acked task " +:+
                            taskId (content d) +:+ ".")] sv)).
Proof.
  intros Hpop Hparse evs. subst evs.
  assert (after env (waitForTask (judge_token env)) (connect id, sv) =
    (set_polling S (set_waitingForTask true (connect id)),
     performed [ack;
                winston_verbose ("Judge client " +:+ id +:+ " emitted waitForTask.");
                redis_BZPOPMAX 10] sv)) as H1.
  { unfold after, handle. by rewrite waitForTask_starts_poll. }
  assert (∀ sv1 : Server Detail, redis_judge sv1 = redis_judge sv →
    after env poll_resolved (set_polling S (set_waitingForTask true (connect id)), sv1) =
    (set_pendingAckTaskObj (Some {| data := d; priority := score |})
       (set_waitingForTask true (connect id)),
     performed
       [winston_verbose ("Sending task " +:+ taskId (content d) +:+
                         " to judge client " +:+ id +:+ ".");
        socket_emit_onTask (msgPack_encode env d)]
       (set_redis_judge (λ _, z') sv1))) as H2.
  { intros sv1 Hq. exec. rewrite Hq, Hpop. cbn. rewrite Hparse. cbn.
    done_performed. }
  split.
  - cbn [run_enabled]. rewrite H1, H2 by done. cbn.
    by rewrite !bool_decide_eq_true_2 by done.
  - cbn [run foldl]. rewrite H1, H2 by done. exec. done_performed.
Qed.

(** X7: a task that the worker has acknowledged is not pushed back when the
    connection disconnects afterwards: the disconnect handler finds nothing
    pending, writes its log line and leaves the queue alone. *)
Theorem acked_task_is_not_requeued (c : Session) (sv : Server Detail)
    (task : Task) (reason : string) :
  let w := after env (onTask_acked task) (c, sv) in
  pendingAckTaskObj w.1 = None ∧
  waitingForTask w.1 = false ∧
  on_disconnect env reason w =
    (inr (),
     (set_socket_connected false w.1,
      performed
        [winston_info ("Judge client " +:+ socket_id c +:+
                       " disconnected, reason = " +:+
                       util_inspect env reason +:+ ".")] w.2)) ∧
  redis_judge (after env (disconnect reason) w).2 = redis_judge sv.
Proof.
  intros w. subst w. destruct c as [id conn pend wait pol].
  repeat split; try done; unfold after, handle; by rewrite disconnect_run.
Qed.

(** X8: at most one task is on its way to a worker.  On a connection,
    whatever events the transport delivers, a task that awaits its
    acknowledgement belongs to a connected socket with [waitingForTask] set
    and no poll outstanding, so the connection takes no second entry from
    the queue before the first is acknowledged or pushed back. *)
Theorem one_task_in_flight (id : string) (evs : list Event) (sv : Server Detail)
    (obj : Entry) :
  run_enabled env evs (connect id, sv) = true →
  let c := (run env evs (connect id, sv)).1 in
  pendingAckTaskObj c = Some obj →
  socket_connected c = true ∧ waitingForTask c = true ∧ polling c = 0%nat ∧
  redis_judge (after env poll_resolved (run env evs (connect id, sv))).2
    = redis_judge (run env evs (connect id, sv)).2.
Proof.
  intros Hen c Hp.
  assert (session_inv c = true) as Hinv by (by apply session_inv_run).
  assert (socket_connected c = true ∧ waitingForTask c = true ∧ polling c = 0%nat)
    as (Hc & Hw & Hpol).
  { destruct c as [i conn pend wait [|[|n]]]; cbn in *; subst;
      unfold session_inv in Hinv; cbn in Hinv; try done.
    by apply andb_true_iff in Hinv as [-> ->]. }
  repeat split; try done.
  destruct (run env evs (connect id, sv)) as [c' sv'] eqn:Hrun. subst c.
  cbn in *. rewrite poll_resolved_queue. by rewrite Hpol.
Qed.

(** Counting in a trace that grew at its end. *)
Lemma count_app (p : Effect Detail → bool) (es1 es2 : list (Effect Detail)) :
  count p (es1 ++ es2)%list = (count p es1 + count p es2)%nat.
Proof. unfold count. by rewrite List.filter_app, length_app. Qed.

Ltac count_effects :=
  unfold count, may_emit; cbn; rewrite ?List.filter_app, ?length_app; cbn; lia.

(** Each event pays for the task it emits with an acknowledged request. *)
Lemma emit_budget_step (ev : Event) (c : Session) (sv : Server Detail) :
  session_inv c = true →
  (is_ack ev = true → enabled ev c = true) →
  let w' := after env ev (c, sv) in
  (count is_emit (effects w'.2) + may_emit w'.1 + count is_ack_call (effects sv)
   ≤ count is_ack_call (effects w'.2) + count is_emit (effects sv) + may_emit c)%nat.
Proof.
  intros Hinv Hen w'. subst w'. destruct ev.
  - destruct c as [id [|] [obj|] [|] [|[|n]]]; try done; exec;
      case_decide; cbn; count_effects.
  - destruct c as [id [|] [obj|] [|] [|[|n]]]; try done;
      try (exec; count_effects); exec;
      destruct (Redis.bzpopmax (redis_judge sv)) as [[[member score]|] z']; cbn;
      try count_effects;
      destruct (JSON_parse env member); cbn; count_effects.
  - specialize (Hen eq_refl).
    apply andb_true_iff in Hen as [_ Hp%bool_decide_eq_true].
    destruct c as [id [|] [obj|] [|] [|[|n]]]; try done; exec; count_effects.
  - destruct c as [id [|] [obj|] [|] [|[|n]]]; try done; exec; count_effects.
  - destruct c as [id [|] [obj|] [|] pol]; exec;
      repeat (case_decide; cbn; try count_effects).
  - destruct c as [id [|] [obj|] [|] pol]; exec;
      (case_decide; cbn; [count_effects|]);
      destruct (judge_state_table sv !! _);
      repeat (case_decide; cbn; try count_effects).
  - destruct c as [id [|] [obj|] [|] pol]; exec; count_effects.
Qed.

(** X9: a connection is sent no more tasks than it has asked for.  Over any
    events the transport delivers on a new connection, the [onTask] emits
    added to the trace never outnumber the [waitForTask] acknowledgements
    added to it. *)
Theorem no_task_without_request (id : string) (evs : list Event)
    (sv : Server Detail) :
  run_enabled env evs (connect id, sv) = true →
  let sv' := (run env evs (connect id, sv)).2 in
  (count is_emit (effects sv') + count is_ack_call (effects sv)
   ≤ count is_ack_call (effects sv') + count is_emit (effects sv))%nat.
Proof.
  intros Hen sv'. subst sv'.
  cut (∀ w : World,
    session_inv w.1 = true →
    run_enabled env evs w = true →
    (count is_emit (effects (run env evs w).2) + may_emit (run env evs w).1
       + count is_ack_call (effects w.2)
     ≤ count is_ack_call (effects (run env evs w).2)
       + count is_emit (effects w.2) + may_emit w.1)%nat).
  { intros H. specialize (H (connect id, sv) eq_refl Hen). cbn in H. lia. }
  clear. induction evs as [|ev evs IH]; intros [c sv] Hinv Hen; [cbn; lia|].
  cbn in Hen. apply andb_true_iff in Hen as [Hev Hen].
  pose proof (emit_budget_step ev c sv Hinv (λ _, Hev)) as Hstep.
  cbn in Hstep.
  specialize (IH (after env ev (c, sv)) (session_inv_step env ev c sv Hinv Hev) Hen).
  cbn [run foldl]. fold (run env evs (after env ev (c, sv))).
  cbn [fst snd]. lia.
Qed.


(** ** Results *)

(** X11: an authenticated [reportResult] of type Finished that finds the
    task's row overwrites score, pending (with false), status, total_time,
    max_memory and result from [convertResult], keeps compilation and the
    task's id, language and code, saves the row and only then calls
    [updateRelatedInfo] on it; before that it has told progressPusher to
    clean up.  Closure, queue, cache and timers stay as they were. *)
Theorem reportResult_Finished_updates_row (c : Session) (sv : Server Detail)
    (payload : list byte) (row : JudgeState Detail) :
  let result := msgPack_decode env payload in
  let id := report_taskId result in
  let convertedResult := convertResult env id (report_progress result) in
  report_type result = Finished env →
  judge_state_table sv !! id = Some row →
  ∃ row' : JudgeState Detail,
    on_reportResult env (judge_token env) payload (c, sv) =
      (inr (), (c, set_judge_state_table (insert id row')
         (performed
            [winston_verbose ("Received report for task " +:+ id);
             winston_verbose ("Reporting report finished: " +:+ id);
             progressPusher_cleanupProgress id;
             judge_state_save row';
             judge_state_updateRelatedInfo row'] sv))) ∧
    js_score row' = cr_score convertedResult ∧
    js_pending row' = false ∧
    js_status row' = cr_statusString convertedResult ∧
    js_total_time row' = cr_time convertedResult ∧
    js_max_memory row' = cr_memory convertedResult ∧
    js_result row' = Some (cr_result convertedResult) ∧
    js_compilation row' = js_compilation row ∧
    js_task_id row' = js_task_id row ∧
    js_language row' = js_language row ∧
    js_code row' = js_code row.
Proof.
  intros result id convertedResult Htype Hrow.
  eexists. split; [|shelve].
  { exec. rewrite decide_False by (intros H; by apply H).
    cbn. fold result. fold id. rewrite Hrow, decide_True by done.
    cbn. done_performed. }
  Unshelve. repeat split; reflexivity.
Qed.

(** X12: an authenticated [reportResult] of type Compiled for a task without
    a row is dropped after the log line every result gets: nothing is
    saved, no row appears, progressPusher is not called. *)
Theorem reportResult_Compiled_untracked (c : Session) (sv : Server Detail)
    (payload : list byte) :
  let result := msgPack_decode env payload in
  ProgressReportType_distinct env = true →
  report_type result = Compiled env →
  judge_state_table sv !! report_taskId result = None →
  on_reportResult env (judge_token env) payload (c, sv) =
    (inr (), (c, performed
       [winston_verbose ("Received report for task " +:+ report_taskId result)]
       sv)).
Proof.
  intros result Hd Htype Hrow.
  apply distinct_enum in Hd as (_ & _ & _ & _ & _ & Hcf & _).
  exec. rewrite decide_False by (intros H; by apply H).
  cbn. fold result. rewrite Hrow, decide_False by congruence.
  by rewrite decide_True.
Qed.

(** X13: the module neither creates nor deletes judge_state rows.  Whatever
    the event on a connection, a task id has a row afterwards exactly when
    it had one before, and [judge] leaves the whole table as it is. *)
Theorem judge_state_rows_are_neither_created_nor_deleted (ev : Event)
    (c : Session) (sv : Server Detail) (id : string) :
  (is_Some (judge_state_table (after env ev (c, sv)).2 !! id)
   ↔ is_Some (judge_state_table sv !! id)) ∧
  ∀ judge_state problem priority,
    judge_state_table (judge env judge_state problem priority sv).2
      = judge_state_table sv.
Proof.
  split.
  - destruct ev.
    + destruct c as [i [|] pend [|] pol]; exec; by case_decide.
    + destruct c as [i [|] pend wait [|n]]; exec; try done;
        destruct (Redis.bzpopmax (redis_judge sv)) as [[[member score]|] z'];
        cbn; try done; by destruct (JSON_parse env member).
    + by exec.
    + by destruct c as [i conn [obj|] wait pol]; exec.
    + exec. by repeat (case_decide; cbn; try done).
    + exec. case_decide; cbn; [done|].
      destruct (judge_state_table sv !! report_taskId (msgPack_decode env payload))
        as [row|] eqn:Hrow; repeat (case_decide; cbn; try done);
        rewrite lookup_insert; case_decide; subst; by rewrite ?Hrow.
    + by exec.
  - intros judge_state problem priority. exec.
    repeat (case_decide; cbn; try done).
    by destruct (readFileAsync env _).
Qed.

(** X14: the two report handlers stay out of dispatch.  Whatever the token,
    the type and the payload, [reportProgress] and [reportResult] leave the
    closure's variables and the queue as they are, and add neither an ack,
    nor an [onTask] emit, nor a [ZADD] to the trace. *)
Theorem reports_stay_out_of_dispatch (c : Session) (sv : Server Detail)
    (token : string) (payload : list byte) (ev : Event) :
  ev = reportProgress token payload ∨ ev = reportResult token payload →
  let w' := after env ev (c, sv) in
  w'.1 = c ∧
  redis_judge w'.2 = redis_judge sv ∧
  ∀ p, p = is_ack_call ∨ p = is_emit ∨ p = is_ZADD →
       count p (effects w'.2) = count p (effects sv).
Proof.
  intros [-> | ->] w'; subst w'.
  - split; [apply reportProgress_session|].
    split; [apply reportProgress_queue|].
    intros p Hp. exec.
    destruct Hp as [-> | [-> | ->]];
      repeat (case_decide; cbn; try count_effects).
  - split; [apply reportResult_session|].
    split; [apply reportResult_queue|].
    intros p Hp. exec.
    destruct Hp as [-> | [-> | ->]];
      (case_decide; cbn; [count_effects|]);
      destruct (judge_state_table sv !! _);
      repeat (case_decide; cbn; try count_effects).
Qed.

(** ** The status string *)

Lemma length_filter_le {A} (P : A → Prop) `{∀ x, Decision (P x)} (l : list A) :
  (length (filter P l) ≤ length l)%nat.
Proof.
  induction l as [|x l IH]; [done|]. rewrite filter_cons.
  destruct (decide (P x)); cbn; lia.
Qed.

Lemma length_filter_all {A} (P : A → Prop) `{∀ x, Decision (P x)} (l : list A) :
  length (filter P l) = length l ↔ ∀ x, x ∈ l → P x.
Proof.
  induction l as [|x l IH]; [by split; [intros _ x Hx%elem_of_nil|]|].
  rewrite filter_cons. pose proof (length_filter_le P l) as Hle.
  destruct (decide (P x)) as [Hx|Hx]; cbn; split.
  - intros Hlen y [->|Hy]%elem_of_cons; [done|]. apply IH; [lia|done].
  - intros Hall. f_equal. apply IH. intros y Hy. apply Hall. by right.
  - lia.
  - intros Hall. destruct Hx. apply Hall. by left.
Qed.

Lemma length_filter_none {A} (P : A → Prop) `{∀ x, Decision (P x)} (l : list A) :
  length (filter P l) = 0%nat ↔ ∀ x, x ∈ l → ¬ P x.
Proof.
  induction l as [|x l IH]; [by split; [intros _ x Hx%elem_of_nil|]|].
  rewrite filter_cons.
  destruct (decide (P x)) as [Hx|Hx]; cbn; split.
  - done.
  - intros Hall. destruct (Hall x); [by left|done].
  - intros Hlen y [->|Hy]%elem_of_cons; [done|]. by apply IH.
  - intros Hall. apply IH. intros y Hy. apply Hall. by right.
Qed.

Lemma not_pending_iff (s : Z) : s ∉ [0; 1] ↔ s ≠ 0 ∧ s ≠ 1.
Proof. rewrite !elem_of_cons, elem_of_nil. intuition. Qed.

Lemma pending_iff (s : Z) : ¬ (s ∉ [0; 1]) ↔ s = 0 ∨ s = 1.
Proof.
  rewrite not_pending_iff. destruct (decide (s = 0)), (decide (s = 1)); intuition.
Qed.

(** X15: the two numbers in ["Running <finished>/<total>"].  The finished
    count never exceeds the total; it equals the total exactly when no case
    has status 0 or 1, and it is 0 exactly when every case has status 0 or
    1; a payload without cases, be it without subtasks or with empty ones,
    gives ["Running 0/0"]. *)
Theorem running_counts_are_bounded (result : ProgressPayload) :
  ((countCases result).1 ≤ (countCases result).2)%nat ∧
  ((countCases result).1 = (countCases result).2 ↔
   ∀ curr, curr ∈ allCases result → status curr ≠ 0 ∧ status curr ≠ 1) ∧
  ((countCases result).1 = 0%nat ↔
   ∀ curr, curr ∈ allCases result → status curr = 0 ∨ status curr = 1) ∧
  (allCases result = [] → getRunningTaskStatusString result = "Running 0/0").
Proof.
  unfold getRunningTaskStatusString. rewrite countCases_spec. cbn [fst snd].
  unfold finishedCases. split; [apply length_filter_le|]. split; [|split].
  - rewrite length_filter_all.
    split; intros H curr Hin; by apply not_pending_iff, H.
  - rewrite length_filter_none.
    split; intros H curr Hin; by apply pending_iff, H.
  - by intros ->.
Qed.

(** ** Timers *)

Lemma time_passes_now (c : Session) (sv : Server Detail) (ms : N) :
  now (after env (time_passes ms) (c, sv)).2 = (now sv + ms)%N.
Proof. by exec. Qed.

Lemma time_passes_timers (c : Session) (sv : Server Detail) (ms : N)
    (timer : N * string) :
  timer ∈ timers (after env (time_passes ms) (c, sv)).2 ↔
  timer ∈ timers sv ∧ (now sv + ms < timer.1)%N.
Proof.
  exec. rewrite list_elem_of_In, List.filter_In, <- list_elem_of_In.
  unfold is_due. rewrite negb_true_iff, bool_decide_eq_false. cbn.
  split; intros [? ?]; split; try done; lia.
Qed.

Lemma time_passes_deletes (c : Session) (sv : Server Detail) (ms : N)
    (due : N) (id : string) :
  (due, id) ∈ timers sv →
  (due ≤ now sv + ms)%N →
  judgeStateCache (after env (time_passes ms) (c, sv)).2 !! id = None.
Proof.
  intros Hin Hdue. rewrite time_passes_cache.
  assert (existsb (λ timer, is_due (now sv + ms) timer && bool_decide (timer.2 = id))
            (timers sv) = true) as ->; [|done].
  apply existsb_exists. exists (due, id). split; [by apply list_elem_of_In|].
  unfold is_due. cbn. by rewrite !bool_decide_eq_true_2.
Qed.

(** X16: each [setTimeout] callback runs once, when its delay is over.  When
    time passes, the clock advances by that much; the timers that remain are
    those not yet due; an entry is absent afterwards exactly when it was
    absent before or a timer for its task has come due; and an entry that is
    still there is the one that was there. *)
Theorem timers_fire_once (c : Session) (sv : Server Detail) (ms : N) :
  let sv' := (after env (time_passes ms) (c, sv)).2 in
  now sv' = (now sv + ms)%N ∧
  (∀ timer, timer ∈ timers sv' ↔ timer ∈ timers sv ∧ (now sv + ms < timer.1)%N) ∧
  (∀ id, judgeStateCache sv' !! id = None ↔
         judgeStateCache sv !! id = None ∨
         ∃ due, (due, id) ∈ timers sv ∧ (due ≤ now sv + ms)%N) ∧
  (∀ id snapshot, judgeStateCache sv' !! id = Some snapshot →
                  judgeStateCache sv !! id = Some snapshot).
Proof.
  intros sv'. subst sv'.
  split; [apply time_passes_now|]. split; [apply time_passes_timers|].
  split.
  - intros id. rewrite time_passes_cache.
    destruct (existsb _ (timers sv)) eqn:Hex.
    + split; [|done]. intros _. right.
      apply existsb_exists in Hex as ([due id'] & Hin & Hdue).
      apply andb_true_iff in Hdue as [Hd%bool_decide_eq_true Hid%bool_decide_eq_true].
      cbn in *. subst id'. exists due. split; [by apply list_elem_of_In|done].
    + split; [by left|]. intros [Hnone | (due & Hin & Hdue)]; [done|].
      apply not_true_iff_false in Hex. destruct Hex.
      apply existsb_exists. exists (due, id). split; [by apply list_elem_of_In|].
      unfold is_due. cbn. by rewrite !bool_decide_eq_true_2.
  - intros id snapshot. rewrite time_passes_cache.
    by destruct (existsb _ (timers sv)).
Qed.

(** X17: a deletion scheduled by a task's Finished report is tied to the
    task id, not to the run.  When the task is started again before the
    5000 ms are over, the cache holds the new run's "Compiling" snapshot,
    and the old timer removes it as soon as 5000 ms have passed since the
    earlier Finished. *)
Theorem pending_deletion_outlives_restart (c : Session) (sv : Server Detail)
    (p_fin p_start : list byte) (ms1 ms2 : N) :
  let fin := msgPack_decode env p_fin in
  let start := msgPack_decode env p_start in
  let id := report_taskId fin in
  ProgressReportType_distinct env = true →
  report_type fin = Finished env →
  report_type start = Started env →
  report_taskId start = id →
  (ms1 < 5000)%N →
  (5000 ≤ ms1 + ms2)%N →
  let restarted :=
    run env [reportProgress (judge_token env) p_fin; time_passes ms1;
             reportProgress (judge_token env) p_start] (c, sv) in
  getCachedJudgeState id restarted.2 =
    Some {| snap_result := "Compiling"; snap_score := 0;
            snap_time := 0; snap_memory := 0 |} ∧
  getCachedJudgeState id (after env (time_passes ms2) restarted).2 = None.
Proof.
  intros fin start id Hd Hfin Hstart Hid Hms1 Hms2 restarted.
  set (sv1 := set_timers (λ l, (l ++ [((now sv + 5000)%N, id)])%list)
    (performed
       [winston_verbose ("Got progress from progress exchange, id: " +:+ id);
        progressPusher_updateResult id (report_progress fin)] sv)).
  set (sv2 := (after env (time_passes ms1) (c, sv1)).2).
  assert (after env (reportProgress (judge_token env) p_fin) (c, sv) = (c, sv1))
    as H1.
  { unfold after, handle.
    by rewrite (reportProgress_Finished env c sv p_fin Hd Hfin). }
  assert (after env (time_passes ms1) (c, sv1) = (c, sv2)) as H2.
  { rewrite (surjective_pairing (after env (time_passes ms1) (c, sv1))).
    by rewrite time_passes_session. }
  assert (after env (reportProgress (judge_token env) p_start) (c, sv2) =
    (c, performed
       [winston_verbose ("Got progress from progress exchange, id: " +:+ id);
        progressPusher_createTask id]
       (set_judgeStateCache (insert id
          {| snap_result := "Compiling"; snap_score := 0;
             snap_time := 0; snap_memory := 0 |}) sv2))) as H3.
  { unfold after, handle.
    rewrite (reportProgress_Started env c sv2 p_start Hstart).
    fold start. by rewrite Hid. }
  assert (((now sv + 5000)%N, id) ∈ timers sv2) as Htimer.
  { apply time_passes_timers. split.
    - subst sv1. cbn. apply elem_of_app. right. by left.
    - subst sv1. cbn. lia. }
  assert (now sv2 = (now sv + ms1)%N) as Hnow.
  { unfold sv2. rewrite time_passes_now. by subst sv1. }
  subst restarted. cbn [run foldl]. rewrite H1, H2, H3. cbn [snd]. split.
  - unfold getCachedJudgeState. cbn. by rewrite lookup_insert_eq.
  - unfold getCachedJudgeState.
    apply (time_passes_deletes _ _ _ (now sv + 5000)%N); cbn; [done|lia].
Qed.

(** After time has passed, an entry is missing only if it was missing or a
    timer for its task has come due. *)
Lemma timers_fire_at_most_due (c : Session) (sv : Server Detail) (ms : N)
    (id : string) :
  judgeStateCache (after env (time_passes ms) (c, sv)).2 !! id = None →
  judgeStateCache sv !! id = None ∨
  ∃ due, (due, id) ∈ timers sv ∧ (due ≤ now sv + ms)%N.
Proof.
  rewrite time_passes_cache.
  destruct (existsb _ (timers sv)) eqn:Hex; [|by left]. intros _. right.
  apply existsb_exists in Hex as ([due id'] & Hin & Hdue).
  apply andb_true_iff in Hdue as [Hd%bool_decide_eq_true Hid%bool_decide_eq_true].
  cbn in *. subst id'. exists due. split; [by apply list_elem_of_In|done].
Qed.

(** X18: an entry leaves the cache only through a Finished report for its
    task.  Over any events of a connection among which there is no
    authenticated [reportProgress] of type Finished for task [id], and with
    no deletion of [id] pending at the start, an entry that [id] has at the
    start is still there at the end, however much time passes, and no
    deletion of it is pending. *)
Theorem entry_stays_until_Finished (id : string) (evs : list Event)
    (c : Session) (sv : Server Detail) :
  forallb (λ ev, negb (is_Finished_for env id ev)) evs = true →
  (∀ timer, timer ∈ timers sv → timer.2 ≠ id) →
  is_Some (judgeStateCache sv !! id) →
  is_Some (judgeStateCache (run env evs (c, sv)).2 !! id) ∧
  (∀ timer, timer ∈ timers (run env evs (c, sv)).2 → timer.2 ≠ id).
Proof.
  revert c sv. induction evs as [|ev evs IH]; intros c sv Hevs Hfresh Hsome; [done|].
  cbn in Hevs. apply andb_true_iff in Hevs as [Hev%negb_true_iff Hevs].
  cbn [run foldl]. fold (run env evs (after env ev (c, sv))).
  destruct (after env ev (c, sv)) as [c' sv'] eqn:Hafter.
  assert (sv' = (after env ev (c, sv)).2) as Hsv' by (by rewrite Hafter).
  apply IH; [done| |].
  - intros timer Hin. rewrite Hsv' in Hin. clear Hafter Hsv'.
    destruct ev; try (revert Hin; exec; by apply Hfresh).
    + revert Hin. destruct c as [i [|] pend [|] pol]; exec;
        case_decide; cbn; by apply Hfresh.
    + revert Hin. destruct c as [i [|] pend wait [|n]]; exec;
        try (by apply Hfresh);
        destruct (Redis.bzpopmax (redis_judge sv)) as [[[member score]|] z'];
        cbn; try (by apply Hfresh);
        destruct (JSON_parse env member); cbn; by apply Hfresh.
    + revert Hin. destruct c as [i conn [obj|] wait pol]; exec; by apply Hfresh.
    + revert Hin. exec.
      case_decide as Htok; cbn; [intros; by apply Hfresh|].
      try apply dec_stable in Htok.
      repeat (case_decide; cbn; try (intros; by apply Hfresh)).
      rewrite elem_of_app, list_elem_of_singleton.
      intros [Hin| ->]; [by apply Hfresh|]. cbn. intros Hid.
      unfold is_Finished_for in Hev.
      by rewrite !bool_decide_eq_true_2 in Hev by done.
    + revert Hin. exec. case_decide; cbn; [by apply Hfresh|].
      destruct (judge_state_table sv !! _);
        repeat (case_decide; cbn; try (by apply Hfresh)).
    + apply time_passes_timers in Hin as [Hin _]. by apply Hfresh.
  - rewrite Hsv'. clear Hafter Hsv'.
    assert ((∃ ms, ev = time_passes ms) ∨ ∀ ms, ev ≠ time_passes ms)
      as [[ms ->]|Hnt] by (destruct ev; eauto).
    + destruct (judgeStateCache (after env (time_passes ms) (c, sv)).2 !! id)
        eqn:Hc; [done|].
      pose proof (timers_fire_at_most_due c sv ms id Hc) as [Hnone|(due & Hin & _)].
      * rewrite Hnone in Hsome. by destruct Hsome.
      * by destruct (Hfresh _ Hin).
    + destruct (handlers_keep_cache_entries env ev c sv Hnt) as [->|(i & x & ->)];
        [done|].
      rewrite lookup_insert. case_decide; eauto.
Qed.


(** ** judge and the queue *)

(** X20: what [judge] puts on the queue.  When [judge] succeeds it has made
    one [ZADD], of a task that carries the judge_state's task id, the
    problem id in decimal as test data, and as [content.priority] the very
    priority it is queued under, and that has exactly one of [param] and
    [extraData] set: [extraData] for ['submit-answer'], [param] otherwise.
    When [judge] fails, the problem is a ['submit-answer'] one and the state
    is untouched. *)
Theorem judge_enqueues_well_formed_task (judge_state : JudgeState Detail)
    (problem : Problem) (priority : Z) (sv : Server Detail) :
  match judge env judge_state problem priority sv with
  | (inr _, sv') =>
      ∃ task : Task,
        sv' = set_redis_judge (Redis.zadd priority (JSON_stringify env task))
                (performed [redis_ZADD priority (JSON_stringify env task)] sv) ∧
        taskId (content task) = js_task_id judge_state ∧
        testData (content task) = pretty (problem_id problem) ∧
        content_priority (content task) = priority ∧
        (is_Some (extraData task) ↔ problem_type problem = "submit-answer") ∧
        (is_Some (param (content task)) ↔ problem_type problem ≠ "submit-answer")
  | (inl e, sv') =>
      sv' = sv ∧ problem_type problem = "submit-answer" ∧
      e = ReadFileError (resolvePath env "answer" (js_code judge_state))
  end.
Proof.
  exec. case_decide as Hsa; cbn.
  - destruct (readFileAsync env _) as [bytes|]; cbn; [|done].
    eexists. split; [done_performed|]. cbn.
    repeat split; try done; eauto; by intros [? ?].
  - case_decide; cbn; (eexists; split; [done_performed|]); cbn;
      repeat split; try done; eauto; by intros [? ?].
Qed.

(** X21: submitting the same evaluation twice under the same priority
    leaves one queue entry, not two: the second [judge] writes the member
    the first one wrote, with the same score, so the queue after both is the
    queue after the first. *)
Theorem judge_twice_queues_once (judge_state : JudgeState Detail)
    (problem : Problem) (priority : Z) (sv : Server Detail) :
  let once := judge env judge_state problem priority sv in
  let twice := judge env judge_state problem priority once.2 in
  redis_judge twice.2 = redis_judge once.2 ∧
  twice.1 = once.1.
Proof.
  intros once twice. subst twice once. exec.
  case_decide; cbn.
  - destruct (readFileAsync env _); cbn; [|done].
    split; [|done]. unfold Redis.zadd. by rewrite insert_insert_eq.
  - case_decide; cbn; (split; [|done]); unfold Redis.zadd;
      by rewrite insert_insert_eq.
Qed.

(** ** What each stream writes *)

(** X22: each report stream writes its own store, and only at the reported
    task.  Whatever the token, the type and the payload, [reportProgress]
    leaves the judge_state table alone and changes the cache at no other
    task id than the reported one; [reportResult] leaves the cache and the
    timers alone and changes the table at no other task id than the
    reported one. *)
Theorem each_stream_writes_its_own_store (c : Session) (sv : Server Detail)
    (token : string) (payload : list byte) :
  let id := report_taskId (msgPack_decode env payload) in
  let wp := after env (reportProgress token payload) (c, sv) in
  let wr := after env (reportResult token payload) (c, sv) in
  judge_state_table wp.2 = judge_state_table sv ∧
  (∀ id', id' ≠ id → judgeStateCache wp.2 !! id' = judgeStateCache sv !! id') ∧
  judgeStateCache wr.2 = judgeStateCache sv ∧
  timers wr.2 = timers sv ∧
  (∀ id', id' ≠ id → judge_state_table wr.2 !! id' = judge_state_table sv !! id').
Proof.
  intros id wp wr. subst wp wr. split; [|split; [|split; [|split]]].
  - exec. by repeat (case_decide; cbn; try done).
  - intros id' Hne. exec.
    repeat (case_decide; cbn; try done); by rewrite lookup_insert_ne.
  - exec. case_decide; cbn; [done|].
    destruct (judge_state_table sv !! _); by repeat (case_decide; cbn; try done).
  - exec. case_decide; cbn; [done|].
    destruct (judge_state_table sv !! _); by repeat (case_decide; cbn; try done).
  - intros id' Hne. exec. case_decide; cbn; [done|].
    destruct (judge_state_table sv !! _);
      repeat (case_decide; cbn; try done); by rewrite lookup_insert_ne.
Qed.

End JudgerMore.

(** ** The statements on the concrete instance *)

(** The queue hands out the higher priority first: with A at 5 and B at 10,
    two polls return B and then A. *)
Example poll_order :
  let sv := Demo.sv in
  let r1 := judgeQueue_poll Demo.env 10 sv in
  let r2 := judgeQueue_poll Demo.env 10 r1.2 in
  r1.1 = inr (Some {| data := Demo.task "B"; priority := 10 |}) ∧
  r2.1 = inr (Some {| data := Demo.task "A"; priority := 5 |}) ∧
  redis_judge r2.2 = ∅.
Proof. vm_compute. done. Qed.

Lemma requeue_keeps_entry_witness :
  let c := set_socket_connected false Demo.waiting in
  let obj := {| data := Demo.task "B"; priority := 10 |} in
  let delivered := set_pendingAckTaskObj (Some obj) (connect "s1") in
  let popped : Server () := set_redis_judge (λ _, {[ "A" := 5 ]}) Demo.sv in
  let evs := [waitForTask "secret"; poll_resolved; reportProgress "secret" [x01];
              disconnect "transport close"; time_passes 10] in
  let failed :=
    [("s1", [waitForTask "secret"; poll_resolved; disconnect "transport close"]);
     ("s2", [waitForTask "secret"; disconnect "ping timeout"; poll_resolved])] in
  (polling c ≠ 0%nat ∧ socket_connected c = false ∧
   Redis.bzpopmax (redis_judge Demo.sv) = (Some ("B", 10), {[ "A" := 5 ]}) ∧
   JSON_parse Demo.env "B" = Some (Demo.task "B") ∧
   JSON_stringify Demo.env (Demo.task "B") = "B") ∧
  (pendingAckTaskObj delivered = Some obj ∧
   JSON_parse Demo.env (JSON_stringify Demo.env (data obj)) = Some (data obj) ∧
   Redis.zmax (redis_judge (judgeQueue_push Demo.env (data obj) (priority obj) popped).2)
     = Some (JSON_stringify Demo.env (data obj), priority obj)) ∧
  (session_inv (connect "s1") = true ∧
   queue_wf Demo.env (custody Demo.env (connect "s1", Demo.sv)) = true ∧
   forallb (λ ev, negb (is_ack ev)) evs = true ∧
   forallb (λ a, pre_ack_disconnect a.2) failed = true) ∧
  Redis.zadd 10 "B" {[ "A" := 5 ]} = redis_judge Demo.sv ∧
  redis_judge (on_disconnect Demo.env "transport close" (delivered, popped)).2.2
    = Redis.zadd 10 "B" {[ "A" := 5 ]} ∧
  (judgeQueue_poll Demo.env 10
     (judgeQueue_push Demo.env (data obj) (priority obj) popped).2).1
    = inr (Some obj) ∧
  custody Demo.env (run Demo.env evs (connect "s1", Demo.sv))
    = redis_judge Demo.sv ∧
  redis_judge (attempts Demo.env failed Demo.sv) = redis_judge Demo.sv.
Proof.
  intros c obj delivered popped evs failed.
  assert (polling c ≠ 0%nat) as H1 by done.
  assert (socket_connected c = false) as H2 by reflexivity.
  assert (Redis.bzpopmax (redis_judge Demo.sv) = (Some ("B", 10), {[ "A" := 5 ]}))
    as H3 by (vm_compute; reflexivity).
  assert (JSON_parse Demo.env "B" = Some (Demo.task "B")) as H4 by reflexivity.
  assert (JSON_stringify Demo.env (Demo.task "B") = "B") as H5 by reflexivity.
  assert (pendingAckTaskObj delivered = Some obj) as H6 by reflexivity.
  assert (JSON_parse Demo.env (JSON_stringify Demo.env (data obj)) = Some (data obj))
    as H7 by reflexivity.
  assert (Redis.zmax
            (redis_judge (judgeQueue_push Demo.env (data obj) (priority obj) popped).2)
          = Some (JSON_stringify Demo.env (data obj), priority obj)) as H8
    by (vm_compute; reflexivity).
  assert (session_inv (connect "s1") = true) as H9 by reflexivity.
  assert (queue_wf Demo.env (custody Demo.env (connect "s1", Demo.sv)) = true)
    as H10 by (vm_compute; reflexivity).
  assert (forallb (λ ev, negb (is_ack ev)) evs = true) as H11 by reflexivity.
  assert (forallb (λ a, pre_ack_disconnect a.2) failed = true) as H12
    by reflexivity.
  destruct (requeue_keeps_entry Demo.env) as (Himm & Hdis & Havail & Hcust & Hatt).
  destruct (Himm c Demo.sv "B" 10 {[ "A" := 5 ]} (Demo.task "B") H1 H2 H3 H4)
    as [_ Hback].
  split; [done|]. split; [done|]. split; [done|].
  split; [exact (Hback H5)|].
  split; [exact (f_equal (λ r, redis_judge r.2.2)
                   (Hdis delivered popped obj "transport close" H6))|].
  split; [exact (proj2 (Havail obj popped H7) H8)|].
  split; [exact (Hcust (connect "s1") Demo.sv evs H9 H10 H11)|].
  exact (Hatt failed Demo.sv H12 H10).
Defined.

(** A second disconnect on the same closure pushes nothing: the trace holds
    one [ZADD]. *)
Example one_requeue_per_disconnect :
  effects (run Demo.env
             [waitForTask "secret"; poll_resolved;
              disconnect "transport close"; disconnect "transport close"]
             (connect "s1", Demo.sv)).2 =
    [ack;
     winston_verbose "Judge client s1 emitted waitForTask.";
     redis_BZPOPMAX 10;
     winston_verbose "Sending task B to judge client s1.";
     socket_emit_onTask [];
     winston_info "Judge client s1 disconnected, reason = transport close.";
     winston_warn "Re-pushing task B to judge queue.";
     redis_ZADD 10 "B";
     winston_info "Judge client s1 disconnected, reason = transport close."].
Proof. vm_compute. reflexivity. Qed.

Lemma untracked_Finished_still_cleans_up :
  let payload := [x04] in
  let result := msgPack_decode Demo.env payload in
  report_type result = Finished Demo.env ∧
  judge_state_table Demo.sv_untracked !! report_taskId result = None ∧
  effects (after Demo.env (reportResult "secret" payload)
             (connect "s1", Demo.sv_untracked)).2 =
    [winston_verbose "Received report for task T1";
     winston_verbose "Reporting report finished: T1";
     progressPusher_cleanupProgress "T1"].
Proof. vm_compute. done. Qed.

Lemma reportResult_Finished_untracked_witness :
  let payload := [x04] in
  let result := msgPack_decode Demo.env payload in
  (report_type result = Finished Demo.env ∧
   judge_state_table Demo.sv_untracked !! report_taskId result = None) ∧
  (on_reportResult Demo.env "secret" payload
     (connect "s1", Demo.sv_untracked)).2 =
    (connect "s1",
     performed
       [winston_verbose "Received report for task T1";
        winston_verbose "Reporting report finished: T1";
        progressPusher_cleanupProgress "T1"] Demo.sv_untracked).
Proof.
  intros payload result.
  assert (report_type result = Finished Demo.env) as H1 by reflexivity.
  assert (judge_state_table Demo.sv_untracked !! report_taskId result = None)
    as H2 by reflexivity.
  split; [done|].
  exact (f_equal snd
    (reportResult_Finished_untracked Demo.env (connect "s1")
       Demo.sv_untracked payload H1 H2)).
Defined.

Lemma reportProgress_Progress_caches_running_counts_witness :
  let payload := [x03] in
  let progress := msgPack_decode Demo.env payload in
  (ProgressReportType_distinct Demo.env = true ∧
   report_type progress = Progress Demo.env ∧
   length (finishedCases (report_progress progress)) = 3%nat ∧
   length (allCases (report_progress progress)) = 4%nat) ∧
  ∃ snapshot,
    getCachedJudgeState "T1"
      (after Demo.env (reportProgress "secret" payload)
         (connect "s1", Demo.sv)).2 = Some snapshot ∧
    snap_result snapshot = "Running 3/4" ∧
    snap_score snapshot = 75 ∧ snap_time snapshot = 12 ∧ snap_memory snapshot = 34.
Proof.
  intros payload progress.
  assert (ProgressReportType_distinct Demo.env = true) as H1
    by (vm_compute; reflexivity).
  assert (report_type progress = Progress Demo.env) as H2 by reflexivity.
  assert (length (finishedCases (report_progress progress)) = 3%nat) as H3
    by (vm_compute; reflexivity).
  assert (length (allCases (report_progress progress)) = 4%nat) as H4
    by reflexivity.
  split; [done|].
  destruct (reportProgress_Progress_caches_running_counts Demo.env
              (connect "s1") Demo.sv payload H1 H2)
    as (snapshot & _ & Hget & _ & Hscore & Htime & Hmem & Hstr).
  exists snapshot. split; [exact Hget|]. split; [exact (Hstr H3 H4)|].
  split; [exact Hscore|]. split; [exact Htime|exact Hmem].
Defined.

Lemma duplicate_waitForTask_is_acknowledged :
  waitingForTask Demo.waiting = true ∧
  "secret" = judge_token Demo.env ∧
  effects (after Demo.env (waitForTask "secret")
             (Demo.waiting, Demo.sv)).2 =
    [ack;
     winston_verbose
       "Judge client s1 emitted waitForTask, but already waiting, ignoring."].
Proof. vm_compute. done. Qed.

Lemma waitForTask_acked_then_idempotent_witness :
  let evs := [waitForTask "secret"; waitForTask "secret"; poll_resolved;
              onTask_acked (Demo.task "B")] in
  (waitingForTask Demo.waiting = true ∧
   waitingForTask (connect "s1") = false ∧
   socket_connected (connect "s1") = true ∧
   run_enabled Demo.env evs (connect "s1", Demo.sv) = true) ∧
  (on_waitForTask Demo.env "secret" (Demo.waiting, Demo.sv)).2 =
    (Demo.waiting,
     performed
       [ack;
        winston_verbose
          "Judge client s1 emitted waitForTask, but already waiting, ignoring."]
       Demo.sv) ∧
  (on_waitForTask Demo.env "secret" (connect "s1", Demo.sv)).2.1 =
    set_polling S (set_waitingForTask true (connect "s1")) ∧
  (polling (run Demo.env evs (connect "s1", Demo.sv)).1 ≤ 1)%nat.
Proof.
  intros evs.
  assert (waitingForTask Demo.waiting = true) as H1 by reflexivity.
  assert (waitingForTask (connect "s1") = false) as H2 by reflexivity.
  assert (socket_connected (connect "s1") = true) as H3 by reflexivity.
  assert (run_enabled Demo.env evs (connect "s1", Demo.sv) = true) as H4
    by (vm_compute; reflexivity).
  split; [done|].
  destruct (waitForTask_acked_then_idempotent Demo.env Demo.waiting Demo.sv)
    as (Hdup & _ & _).
  destruct (waitForTask_acked_then_idempotent Demo.env (connect "s1") Demo.sv)
    as (_ & Hnew & Hone).
  split; [exact (f_equal snd (Hdup H1))|].
  split; [exact (f_equal (λ r, r.2.1) (Hnew H2 H3))|].
  exact (proj1 (Hone "s1" evs Demo.sv H4)).
Defined.

Lemma progress_cache_lifecycle_witness :
  let started := after Demo.env (reportProgress "secret" [x01])
                   (connect "s1", Demo.sv) in
  let finished := after Demo.env (reportProgress "secret" [x04]) started in
  let reported := after Demo.env (reportProgress "secret" [x05]) finished in
  (ProgressReportType_distinct Demo.env = true ∧
   report_type (msgPack_decode Demo.env [x01]) = Started Demo.env ∧
   report_type (msgPack_decode Demo.env [x04]) = Finished Demo.env ∧
   report_type (msgPack_decode Demo.env [x05]) = Reported Demo.env ∧
   (∀ timer, timer ∈ timers started.2 → timer.2 ≠ "T1") ∧
   (∀ ms, disconnect "transport close" ≠ time_passes ms) ∧
   is_Some (judgeStateCache reported.2 !! "T1")) ∧
  judgeStateCache started.2 =
    <[ "T1" := {| snap_result := "Compiling"; snap_score := 0;
                  snap_time := 0; snap_memory := 0 |} ]>
      (judgeStateCache Demo.sv) ∧
  judgeStateCache finished.2 = judgeStateCache started.2 ∧
  timers finished.2 = [(5000%N, "T1")] ∧
  judgeStateCache (after Demo.env (time_passes 4999) finished).2 !! "T1" =
    judgeStateCache started.2 !! "T1" ∧
  judgeStateCache (after Demo.env (time_passes 5000) finished).2 !! "T1" = None ∧
  judgeStateCache reported.2 = judgeStateCache finished.2 ∧
  timers reported.2 = timers finished.2 ∧
  is_Some (judgeStateCache
             (after Demo.env (disconnect "transport close") reported).2 !! "T1").
Proof.
  intros started finished reported.
  assert (ProgressReportType_distinct Demo.env = true) as H1
    by (vm_compute; reflexivity).
  assert (report_type (msgPack_decode Demo.env [x01]) = Started Demo.env)
    as H2 by reflexivity.
  assert (report_type (msgPack_decode Demo.env [x04]) = Finished Demo.env)
    as H3 by reflexivity.
  assert (report_type (msgPack_decode Demo.env [x05]) = Reported Demo.env)
    as H4 by reflexivity.
  assert (∀ timer, timer ∈ timers started.2 → timer.2 ≠ "T1") as H5.
  { intros timer Hin. vm_compute in Hin. by apply elem_of_nil in Hin. }
  assert (∀ ms, disconnect "transport close" ≠ time_passes ms) as H6 by done.
  assert (is_Some (judgeStateCache reported.2 !! "T1")) as H7
    by (vm_compute; eauto).
  split; [done|].
  destruct (progress_cache_lifecycle Demo.env (connect "s1") Demo.sv [x01] H1)
    as (Hstarted & _).
  destruct (progress_cache_lifecycle Demo.env started.1 started.2 [x04] H1)
    as (_ & Hfinished & _).
  destruct (progress_cache_lifecycle Demo.env finished.1 finished.2 [x05] H1)
    as (_ & _ & Hreported & _).
  destruct (progress_cache_lifecycle Demo.env reported.1 reported.2 [x05] H1)
    as (_ & _ & _ & Hkept).
  destruct (Hfinished H3) as (Hkeep & Htimers & Hwindow).
  destruct (Hreported H4) as (Hcache & Hsame & _).
  split; [exact (proj1 (Hstarted H2))|].
  split; [exact Hkeep|].
  split; [exact Htimers|].
  split; [exact (Hwindow 4999%N H5)|].
  split; [exact (Hwindow 5000%N H5)|].
  split; [exact Hcache|].
  split; [exact Hsame|].
  exact (Hkept (disconnect "transport close") "T1" H6 H7).
Defined.

(** C6: a [reportProgress] whose type (here 99) is none of the five enum
    values falls through the if-chain of lines 121-147, which has no final
    else: the handler returns with only the verbose line written, so nothing
    is logged as an error. *)
Theorem reportProgress_unknown_type_logs_no_error :
  let payload := [x63] in
  report_type (msgPack_decode Demo.env payload) = 99 ∧
  on_reportProgress Demo.env "secret" payload (connect "s1", Demo.sv) =
    (inr (),
     (connect "s1",
      performed [winston_verbose "Got progress from progress exchange, id: T1"]
        Demo.sv)).
Proof. split; [reflexivity|]. vm_compute. reflexivity. Qed.

(** The same type on the result stream is logged with [winston.error]. *)
Example reportResult_unknown_type_logs_error :
  on_reportResult Demo.env "secret" [x63] (connect "s1", Demo.sv) =
    (inr (),
     (connect "s1",
      performed [winston_verbose "Received report for task T1";
                 winston_error "Unsupported result type: 99"]
        Demo.sv)).
Proof. vm_compute. reflexivity. Qed.

Lemma invalid_token_is_dropped_witness :
  "guess" ≠ judge_token Demo.env ∧
  on_waitForTask Demo.env "guess" (connect "s1", Demo.sv) =
    (inr (), (connect "s1", performed
       [winston_warn "Judge client s1 emitted waitForTask with invalid token."]
       Demo.sv)) ∧
  on_reportProgress Demo.env "guess" [x03] (connect "s1", Demo.sv) =
    (inr (), (connect "s1", performed
       [winston_warn "Judge client s1 emitted reportProgress with invalid token."]
       Demo.sv)) ∧
  on_reportResult Demo.env "guess" [x04] (connect "s1", Demo.sv) =
    (inr (), (connect "s1", performed
       [winston_warn "Judge client s1 emitted reportResult with invalid token."]
       Demo.sv)).
Proof.
  assert ("guess" ≠ judge_token Demo.env) as H by done.
  split; [exact H|].
  destruct (invalid_token_is_dropped Demo.env (connect "s1") Demo.sv
              "guess" [x03] H) as (Hw & Hp & _).
  destruct (invalid_token_is_dropped Demo.env (connect "s1") Demo.sv
              "guess" [x04] H) as (_ & _ & Hr).
  split; [exact Hw|]. split; [exact Hp|exact Hr].
Defined.

Lemma judge_enqueues_one_task_witness :
  let answer := Demo.problem "submit-answer" in
  let missing : JudgeState () :=
    {| js_task_id := "T2"; js_language := "cpp"; js_code := "lost";
       js_score := 0; js_pending := true; js_status := "Waiting";
       js_total_time := 0; js_max_memory := 0;
       js_result := None; js_compilation := None |} in
  (problem_type answer = "submit-answer" ∧
   problem_type (Demo.problem "interaction") = "interaction" ∧
   problem_type (Demo.problem "traditional") ≠ "submit-answer" ∧
   problem_type (Demo.problem "traditional") ≠ "interaction") ∧
  judge Demo.env Demo.row answer 3 Demo.sv =
    (inr (),
     set_redis_judge (Redis.zadd 3 "T1")
       (performed [redis_ZADD 3 "T1"] Demo.sv)) ∧
  judge Demo.env missing answer 3 Demo.sv =
    (inl (ReadFileError "answer/lost"), Demo.sv) ∧
  effects (judge Demo.env Demo.row (Demo.problem "interaction") 3
             Demo.sv).2 = [redis_ZADD 3 "T1"] ∧
  effects (judge Demo.env Demo.row (Demo.problem "traditional") 3
             Demo.sv).2 = [redis_ZADD 3 "T1"].
Proof.
  intros answer missing.
  assert (problem_type answer = "submit-answer") as H1 by reflexivity.
  assert (problem_type (Demo.problem "interaction") = "interaction") as H2
    by reflexivity.
  assert (problem_type (Demo.problem "traditional") ≠ "submit-answer") as H3
    by done.
  assert (problem_type (Demo.problem "traditional") ≠ "interaction") as H4
    by done.
  split; [done|].
  destruct (judge_enqueues_one_task Demo.env Demo.row answer 3 Demo.sv)
    as (Hread & _ & _).
  destruct (judge_enqueues_one_task Demo.env missing answer 3 Demo.sv)
    as (Hfail & _ & _).
  destruct (judge_enqueues_one_task Demo.env Demo.row
              (Demo.problem "interaction") 3 Demo.sv) as (_ & Hinter & _).
  destruct (judge_enqueues_one_task Demo.env Demo.row
              (Demo.problem "traditional") 3 Demo.sv) as (_ & _ & Hstd).
  split; [exact (Hread H1)|]. split; [exact (Hfail H1)|].
  split; [exact (f_equal (λ r, effects r.2) (Hinter H2))|].
  exact (f_equal (λ r, effects r.2) (Hstd H3 H4)).
Defined.

Lemma reportResult_Compiled_touches_compilation_only_witness :
  let payload := [x02] in
  let result := msgPack_decode Demo.env payload in
  (ProgressReportType_distinct Demo.env = true ∧
   report_type result = Compiled Demo.env ∧
   judge_state_table Demo.sv !! report_taskId result = Some Demo.row) ∧
  ∃ row' : JudgeState (),
    judge_state_table
      (on_reportResult Demo.env "secret" payload (connect "s1", Demo.sv)).2.2
      = <[ "T1" := row' ]> (judge_state_table Demo.sv) ∧
    js_compilation row' = Some Demo.progress ∧
    js_score row' = 0 ∧ js_pending row' = true ∧ js_status row' = "Waiting" ∧
    js_total_time row' = 0 ∧ js_max_memory row' = 0 ∧ js_result row' = None.
Proof.
  intros payload result.
  assert (ProgressReportType_distinct Demo.env = true) as H1
    by (vm_compute; reflexivity).
  assert (report_type result = Compiled Demo.env) as H2 by reflexivity.
  assert (judge_state_table Demo.sv !! report_taskId result = Some Demo.row)
    as H3 by reflexivity.
  split; [done|].
  destruct (reportResult_Compiled_touches_compilation_only Demo.env
              (connect "s1") Demo.sv payload Demo.row H1 H2 H3)
    as (row' & Hrun & Hc & Hs & Hp & Hst & Ht & Hm & Hr & _).
  exists row'. split; [exact (f_equal (λ r, judge_state_table r.2.2) Hrun)|].
  split; [exact Hc|]. split; [exact Hs|]. split; [exact Hp|].
  split; [exact Hst|]. split; [exact Ht|]. split; [exact Hm|exact Hr].
Defined.

(** ** The further statements on the concrete instance *)

Lemma pushed_highest_is_polled_next_witness :
  let d := Demo.task "C" in
  (JSON_parse Demo.env (JSON_stringify Demo.env d) = Some d ∧
   map_Forall (λ _ s, (s < 20)%Z) (redis_judge Demo.sv)) ∧
  (judgeQueue_poll Demo.env 10 (judgeQueue_push Demo.env d 20 Demo.sv).2).1
    = inr (Some {| data := d; priority := 20 |}) ∧
  redis_judge
    (judgeQueue_poll Demo.env 10 (judgeQueue_push Demo.env d 20 Demo.sv).2).2
    = delete "C" (redis_judge Demo.sv).
Proof.
  intros d.
  assert (JSON_parse Demo.env (JSON_stringify Demo.env d) = Some d) as H1
    by reflexivity.
  assert (map_Forall (λ _ s, (s < 20)%Z) (redis_judge Demo.sv)) as H2
    by (apply (bool_decide_unpack _); vm_compute; exact I).
  split; [done|].
  exact (pushed_highest_is_polled_next Demo.env d d 20 Demo.sv 10 H1
           (λ m s Hm _, H2 m s Hm)).
Defined.

Lemma polls_never_repeat_witness :
  let r1 := judgeQueue_poll Demo.env 10 Demo.sv in
  let r2 := judgeQueue_poll Demo.env 10 r1.2 in
  let obj1 := {| data := Demo.task "B"; priority := 10 |} in
  let obj2 := {| data := Demo.task "A"; priority := 5 |} in
  (queue_wf Demo.env (redis_judge Demo.sv) = true ∧
   r1 = (inr (Some obj1), r1.2) ∧ r2 = (inr (Some obj2), r2.2)) ∧
  data obj1 ≠ data obj2.
Proof.
  intros r1 r2 obj1 obj2.
  assert (queue_wf Demo.env (redis_judge Demo.sv) = true) as H1
    by (vm_compute; reflexivity).
  assert (r1 = (inr (Some obj1), r1.2)) as H2 by (vm_compute; reflexivity).
  assert (r2 = (inr (Some obj2), r2.2)) as H3 by (vm_compute; reflexivity).
  split; [done|].
  exact (polls_never_repeat Demo.env Demo.sv r1.2 r2.2 10 10 obj1 obj2 H1 H2 H3).
Defined.

Lemma poll_timeout_keeps_state_witness :
  (polling Demo.waiting ≠ 0%nat ∧ redis_judge Demo.sv_idle = ∅) ∧
  on_poll_resolved Demo.env (Demo.waiting, Demo.sv_idle) =
    (inr (), (Demo.waiting, performed [redis_BZPOPMAX 10] Demo.sv_idle)) ∧
  on_poll_resolved Demo.env
    (set_socket_connected false Demo.waiting, Demo.sv_idle) =
    (inr (),
     (set_polling pred (set_socket_connected false Demo.waiting),
      performed
        [winston_verbose "Judge client s1 disconnected, stop poll the queue."]
        Demo.sv_idle)).
Proof.
  assert (polling Demo.waiting ≠ 0%nat) as H1 by done.
  assert (redis_judge Demo.sv_idle = ∅) as H2 by reflexivity.
  split; [done|]. split.
  - exact (poll_timeout_keeps_state Demo.env Demo.waiting Demo.sv_idle H1 H2).
  - exact (poll_timeout_keeps_state Demo.env
             (set_socket_connected false Demo.waiting) Demo.sv_idle H1 H2).
Defined.

Lemma unparsable_member_is_lost_witness :
  (polling Demo.waiting ≠ 0%nat ∧
   Redis.bzpopmax (redis_judge Demo.sv_poisoned)
     = (Some ("{oops", 10), {[ "A" := 5 ]}) ∧
   JSON_parse Demo.env_strict "{oops" = None ∧
   waitingForTask Demo.waiting = true) ∧
  on_poll_resolved Demo.env_strict (Demo.waiting, Demo.sv_poisoned) =
    (inl (SyntaxError "{oops"),
     (set_polling pred Demo.waiting,
      set_redis_judge (λ _, {[ "A" := 5 ]}) Demo.sv_poisoned)) ∧
  effects
    (on_waitForTask Demo.env_strict (judge_token Demo.env_strict)
       (after Demo.env_strict poll_resolved (Demo.waiting, Demo.sv_poisoned))).2.2
    = [ack;
       winston_verbose
         "Judge client s1 emitted waitForTask, but already waiting, ignoring."].
Proof.
  assert (polling Demo.waiting ≠ 0%nat) as H1 by done.
  assert (Redis.bzpopmax (redis_judge Demo.sv_poisoned)
          = (Some ("{oops", 10), {[ "A" := 5 ]})) as H2
    by (vm_compute; reflexivity).
  assert (JSON_parse Demo.env_strict "{oops" = None) as H3 by reflexivity.
  assert (waitingForTask Demo.waiting = true) as H4 by reflexivity.
  split; [repeat split; assumption|].
  destruct (unparsable_member_is_lost Demo.env_strict Demo.waiting
              Demo.sv_poisoned "{oops" 10 {[ "A" := 5 ]} H1 H2 H3)
    as (Hrun & _ & Hlater).
  split; [exact Hrun|].
  rewrite (Hlater H4). reflexivity.
Defined.

Lemma delivery_cycle_witness :
  let evs := [waitForTask "secret"; poll_resolved; onTask_acked (Demo.task "B")] in
  (Redis.bzpopmax (redis_judge Demo.sv) = (Some ("B", 10), {[ "A" := 5 ]}) ∧
   JSON_parse Demo.env "B" = Some (Demo.task "B")) ∧
  run_enabled Demo.env evs (connect "s1", Demo.sv) = true ∧
  (run Demo.env evs (connect "s1", Demo.sv)).1 = connect "s1" ∧
  effects (run Demo.env evs (connect "s1", Demo.sv)).2 =
    [ack;
     winston_verbose "Judge client s1 emitted waitForTask.";
     redis_BZPOPMAX 10;
     winston_verbose "Sending task B to judge client s1.";
     socket_emit_onTask [];
     winston_verbose "Judge client s1 acked task B."].
Proof.
  intros evs.
  assert (Redis.bzpopmax (redis_judge Demo.sv) = (Some ("B", 10), {[ "A" := 5 ]}))
    as H1 by (vm_compute; reflexivity).
  assert (JSON_parse Demo.env "B" = Some (Demo.task "B")) as H2 by reflexivity.
  split; [done|].
  destruct (delivery_cycle Demo.env "s1" Demo.sv "B" 10 {[ "A" := 5 ]}
              (Demo.task "B") H1 H2) as [Hen Hrun].
  split; [exact Hen|].
  split; [exact (f_equal fst Hrun)|exact (f_equal (λ w, effects w.2) Hrun)].
Defined.

Lemma one_task_in_flight_witness :
  let evs := [waitForTask "secret"; poll_resolved] in
  let obj := {| data := Demo.task "B"; priority := 10 |} in
  let c := (run Demo.env evs (connect "s1", Demo.sv)).1 in
  (run_enabled Demo.env evs (connect "s1", Demo.sv) = true ∧
   pendingAckTaskObj c = Some obj) ∧
  socket_connected c = true ∧ waitingForTask c = true ∧ polling c = 0%nat.
Proof.
  intros evs obj c.
  assert (run_enabled Demo.env evs (connect "s1", Demo.sv) = true) as H1
    by (vm_compute; reflexivity).
  assert (pendingAckTaskObj c = Some obj) as H2 by (vm_compute; reflexivity).
  split; [done|].
  destruct (one_task_in_flight Demo.env "s1" evs Demo.sv obj H1 H2)
    as (Hc & Hw & Hp & _).
  split; [exact Hc|]. split; [exact Hw|exact Hp].
Defined.

Lemma no_task_without_request_witness :
  let evs := [waitForTask "secret"; waitForTask "secret"; poll_resolved;
              onTask_acked (Demo.task "B"); waitForTask "secret";
              poll_resolved; disconnect "transport close"] in
  run_enabled Demo.env evs (connect "s1", Demo.sv) = true ∧
  (count is_emit (effects (run Demo.env evs (connect "s1", Demo.sv)).2)
   ≤ count is_ack_call (effects (run Demo.env evs (connect "s1", Demo.sv)).2))%nat.
Proof.
  intros evs.
  assert (run_enabled Demo.env evs (connect "s1", Demo.sv) = true) as H1
    by (vm_compute; reflexivity).
  split; [done|].
  pose proof (no_task_without_request Demo.env "s1" evs Demo.sv H1) as H.
  cbn zeta in H. change (effects Demo.sv) with (@nil (Effect ())) in H.
  cbn [count List.filter length] in H. lia.
Defined.


Lemma reportResult_Finished_updates_row_witness :
  let payload := [x04] in
  let result := msgPack_decode Demo.env payload in
  (report_type result = Finished Demo.env ∧
   judge_state_table Demo.sv !! report_taskId result = Some Demo.row) ∧
  ∃ row' : JudgeState (),
    judge_state_table
      (on_reportResult Demo.env "secret" payload (connect "s1", Demo.sv)).2.2
      = <[ "T1" := row' ]> (judge_state_table Demo.sv) ∧
    js_score row' = 75 ∧ js_pending row' = false ∧
    js_status row' = "Accepted" ∧ js_total_time row' = 12 ∧
    js_max_memory row' = 34 ∧ js_result row' = Some () ∧
    js_compilation row' = None.
Proof.
  intros payload result.
  assert (report_type result = Finished Demo.env) as H1 by reflexivity.
  assert (judge_state_table Demo.sv !! report_taskId result = Some Demo.row)
    as H2 by reflexivity.
  split; [done|].
  destruct (reportResult_Finished_updates_row Demo.env (connect "s1") Demo.sv
              payload Demo.row H1 H2)
    as (row' & Hrun & Hs & Hp & Hst & Ht & Hm & Hr & Hc & _).
  exists row'. split; [exact (f_equal (λ r, judge_state_table r.2.2) Hrun)|].
  split; [exact Hs|]. split; [exact Hp|]. split; [exact Hst|].
  split; [exact Ht|]. split; [exact Hm|]. split; [exact Hr|exact Hc].
Defined.

Lemma reportResult_Compiled_untracked_witness :
  let payload := [x02] in
  let result := msgPack_decode Demo.env payload in
  (ProgressReportType_distinct Demo.env = true ∧
   report_type result = Compiled Demo.env ∧
   judge_state_table Demo.sv_untracked !! report_taskId result = None) ∧
  on_reportResult Demo.env "secret" payload (connect "s1", Demo.sv_untracked) =
    (inr (), (connect "s1",
       performed [winston_verbose "Received report for task T1"]
         Demo.sv_untracked)).
Proof.
  intros payload result.
  assert (ProgressReportType_distinct Demo.env = true) as H1
    by (vm_compute; reflexivity).
  assert (report_type result = Compiled Demo.env) as H2 by reflexivity.
  assert (judge_state_table Demo.sv_untracked !! report_taskId result = None)
    as H3 by reflexivity.
  split; [done|].
  exact (reportResult_Compiled_untracked Demo.env (connect "s1")
           Demo.sv_untracked payload H1 H2 H3).
Defined.

Lemma reports_stay_out_of_dispatch_witness :
  let ev := reportProgress "secret" [x03] in
  let w' := after Demo.env ev (Demo.waiting, Demo.sv) in
  (ev = reportProgress "secret" [x03] ∨ ev = reportResult "secret" [x03]) ∧
  w'.1 = Demo.waiting ∧
  redis_judge w'.2 = redis_judge Demo.sv ∧
  count is_emit (effects w'.2) = count is_emit (effects Demo.sv).
Proof.
  intros ev w'.
  assert (ev = reportProgress "secret" [x03] ∨ ev = reportResult "secret" [x03])
    as H1 by (by left).
  split; [exact H1|].
  destruct (reports_stay_out_of_dispatch Demo.env Demo.waiting Demo.sv
              "secret" [x03] ev H1) as (Hc & Hq & Hcount).
  split; [exact Hc|]. split; [exact Hq|].
  exact (Hcount is_emit (or_intror (or_introl eq_refl))).
Defined.

Lemma running_counts_are_bounded_witness :
  let result := {| result_judge := {| subtasks := [ {| cases := [] |} ] |} |} in
  allCases result = [] ∧
  getRunningTaskStatusString result = "Running 0/0".
Proof.
  intros result.
  assert (allCases result = []) as H1 by reflexivity.
  split; [exact H1|].
  destruct (running_counts_are_bounded result) as (_ & _ & _ & Hempty).
  exact (Hempty H1).
Defined.

Lemma pending_deletion_outlives_restart_witness :
  let restarted :=
    run Demo.env [reportProgress "secret" [x04]; time_passes 1000;
                  reportProgress "secret" [x01]] (connect "s1", Demo.sv) in
  (ProgressReportType_distinct Demo.env = true ∧
   report_type (msgPack_decode Demo.env [x04]) = Finished Demo.env ∧
   report_type (msgPack_decode Demo.env [x01]) = Started Demo.env ∧
   report_taskId (msgPack_decode Demo.env [x01]) = "T1" ∧
   (1000 < 5000)%N ∧ (5000 ≤ 1000 + 4000)%N) ∧
  getCachedJudgeState "T1" restarted.2 =
    Some {| snap_result := "Compiling"; snap_score := 0;
            snap_time := 0; snap_memory := 0 |} ∧
  getCachedJudgeState "T1" (after Demo.env (time_passes 4000) restarted).2 = None.
Proof.
  intros restarted.
  assert (ProgressReportType_distinct Demo.env = true) as H1
    by (vm_compute; reflexivity).
  assert (report_type (msgPack_decode Demo.env [x04]) = Finished Demo.env)
    as H2 by reflexivity.
  assert (report_type (msgPack_decode Demo.env [x01]) = Started Demo.env)
    as H3 by reflexivity.
  assert (report_taskId (msgPack_decode Demo.env [x01]) = "T1") as H4
    by reflexivity.
  assert (1000 < 5000)%N as H5 by lia.
  assert (5000 ≤ 1000 + 4000)%N as H6 by lia.
  split; [done|].
  exact (pending_deletion_outlives_restart Demo.env (connect "s1") Demo.sv
           [x04] [x01] 1000 4000 H1 H2 H3 H4 H5 H6).
Defined.

Lemma entry_stays_until_Finished_witness :
  let sv := (after Demo.env (reportProgress "secret" [x01])
               (connect "s1", Demo.sv)).2 in
  let evs := [reportProgress "secret" [x03]; time_passes 100000;
              reportProgress "secret" [x05]; disconnect "transport close"] in
  (forallb (λ ev, negb (is_Finished_for Demo.env "T1" ev)) evs = true ∧
   timers sv = [] ∧
   is_Some (judgeStateCache sv !! "T1")) ∧
  is_Some (judgeStateCache (run Demo.env evs (connect "s1", sv)).2 !! "T1").
Proof.
  intros sv evs.
  assert (forallb (λ ev, negb (is_Finished_for Demo.env "T1" ev)) evs = true)
    as H1 by (vm_compute; reflexivity).
  assert (timers sv = []) as H2 by reflexivity.
  assert (is_Some (judgeStateCache sv !! "T1")) as H3 by (vm_compute; eauto).
  split; [done|].
  refine (proj1 (entry_stays_until_Finished Demo.env "T1" evs (connect "s1") sv
                   H1 _ H3)).
  intros timer Hin. rewrite H2 in Hin. by apply elem_of_nil in Hin.
Defined.

